(** * Fraud detection for banking transactions: store, triggers and handlers

    A shallow embedding of [db_init.py] (schema, view and the two
    [AFTER INSERT] triggers) and of [app.py] (the request handlers
    [add_transaction], [update_transaction], [delete_transaction] and
    [fraud_alerts]), followed by the properties of the rule engine they
    implement.

    Modelling conventions.
    - A table is the list of its rows in insertion order.
    - An [amount] is what [float()] reads: a finite real, kept as a
      rational, an infinity, or not a number.  SQLite stores the first two
      as [REAL] and is handed [NULL] for the last.  The comparisons of the
      source ([amount <= 0], [amount > 10000]) are exact on it.
    - [txn_time] and [flagged_at] are timestamps ['YYYY-MM-DD HH:MM:SS']:
      what the handlers make of a [datetime-local] field
      ([YYYY-MM-DDTHH:MM]) and of the clock, and what [datetime('now')]
      gives.  On such texts SQLite's text comparison is the order of the
      instants, so a timestamp is kept as its count of seconds and
      [datetime(t, '-5 minutes')] is [t - 300].  A [txn_time] field of
      another shape is not covered.
    - How a runtime prints a real inside a text ([||] in SQLite, an
      f-string in Python) is not fixed here: both printers are variables of
      the section that holds the code, and so is the order in which the
      engine fires the two triggers.
    - A form field is held as read by [request.form.get(..., '').strip()].
    - A request runs alone on its connection.  Every call to the engine
      (the connect, a statement, a commit, a rollback) may fail, as the
      environment plans; the store a handler leaves is what its connection
      has committed. *)

From Stdlib Require Import List String Ascii ZArith QArith Qround Bool Lia.
From Stdlib Require Import DecimalString Permutation.
From Stdlib Require DecimalNat DecimalFacts.
Import ListNotations.

Local Open Scope string_scope.
Local Open Scope Z_scope.

(** ** Texts *)

(** [sub in s] of Python, [instr(s, sub) > 0] of SQL. *)
Fixpoint contains (sub s : string) : bool :=
  String.prefix sub s ||
  match s with
  | EmptyString => false
  | String _ s' => contains sub s'
  end.

(** A whole number printed in decimal, as both runtimes print a count. *)
Definition count_text (n : nat) : string :=
  NilZero.string_of_uint (Nat.to_uint n).

(** ** Amounts *)

(** A [REAL] of SQLite, a [float] of Python that is a number: a finite
    real, kept as a rational, or an infinity. *)
Inductive Real := Finite (q : Q) | PlusInfinity | MinusInfinity.

Coercion Finite : Q >-> Real.
Bind Scope Q_scope with Real.

(** [amount <= bound] and [amount > bound] on reals. *)
Definition Rle_bool (a : Real) (bound : Q) : bool :=
  match a with
  | Finite q => Qle_bool q bound
  | PlusInfinity => false
  | MinusInfinity => true
  end.

Definition Rgtb (a : Real) (bound : Q) : bool := negb (Rle_bool a bound).

(** ** Schema ([create_tables]) *)

Inductive Status := OK | FLAGGED.

(** A row of [transactions]. *)
Record Transaction := mkTransaction {
  t_id : Z;
  transaction_id : string;
  user_id : string;
  amount : Real;
  location : string;
  txn_time : Z;
  txn_type : string;
  status : Status
}.

(** A row of [fraud_alerts]. *)
Record FraudAlert := mkFraudAlert {
  fa_id : Z;
  fa_transaction_id : string;
  fa_user_id : string;
  fa_amount : Real;
  fa_reason : string;
  fa_flagged_at : Z
}.

(** The two tables and their [AUTOINCREMENT] counters ([sqlite_sequence]). *)
Record Database := mkDatabase {
  transactions : list Transaction;
  fraud_alerts : list FraudAlert;
  seq_transactions : Z;
  seq_fraud_alerts : Z
}.

Definition empty_db : Database := mkDatabase [] [] 0 0.

(** [CHECK(txn_type IN ('Credit', 'Debit'))] *)
Definition txn_type_ok (ty : string) : bool :=
  (ty =? "Credit")%string || (ty =? "Debit")%string.

Definition has_tid (tid : string) (r : Transaction) : bool :=
  (transaction_id r =? tid)%string.

Definition alert_of (tid : string) (a : FraudAlert) : bool :=
  (fa_transaction_id a =? tid)%string.

(** ** Errors and statements *)

Inductive SqliteError := IntegrityError | OperationalError | ProgrammingError.

Inductive Outcome (A : Type) :=
| Val (a : A)
| Raise (e : SqliteError).
Arguments Val {A} a.
Arguments Raise {A} e.

(** One SQL statement: a result and a new database, or a constraint
    failure that leaves the database as it was.  A parameter bound to an
    [amount] column is a real or [NULL] ([None]). *)
Definition Stmt (A : Type) := Database -> Outcome (A * Database).

(** [SELECT transaction_id FROM transactions WHERE transaction_id = ?] *)
Definition select_transaction_id (tid : string) : Stmt (list string) :=
  fun db => Val (map transaction_id (filter (has_tid tid) (transactions db)), db).

(** [SELECT * FROM transactions WHERE transaction_id = ?] *)
Definition select_transaction (tid : string) : Stmt (list Transaction) :=
  fun db => Val (filter (has_tid tid) (transactions db), db).

(** The [WHERE] clause of the velocity rule:
    [user_id = ? AND txn_time >= datetime(?, '-5 minutes') AND txn_time <= ?] *)
Definition in_window (uid : string) (t : Z) (r : Transaction) : bool :=
  (user_id r =? uid)%string && (t - 300 <=? txn_time r) && (txn_time r <=? t).

(** [SELECT COUNT( * ) FROM transactions WHERE ...] *)
Definition count_window (uid : string) (t : Z) (rows : list Transaction) : nat :=
  List.length (filter (in_window uid t) rows).

Definition select_count_window (uid : string) (t : Z) : Stmt nat :=
  fun db => Val (count_window uid t (transactions db), db).

(** [INSERT INTO fraud_alerts (transaction_id, user_id, amount, reason)]:
    the key is the next of the sequence, [flagged_at] defaults to
    [datetime('now')]. *)
Definition insert_alert_row (now : Z) (tid uid : string) (amt : Real) (why : string)
    (db : Database) : Database :=
  let k := seq_fraud_alerts db + 1 in
  mkDatabase (transactions db)
             (fraud_alerts db ++ [mkFraudAlert k tid uid amt why now])
             (seq_transactions db) k.

(** [amount REAL NOT NULL] refuses a [NULL]. *)
Definition insert_alert (now : Z) (tid uid : string) (amt : option Real)
    (why : string) : Stmt unit :=
  fun db =>
    match amt with
    | Some a => Val (tt, insert_alert_row now tid uid a why db)
    | None => Raise IntegrityError
    end.

Definition set_status (s : Status) (r : Transaction) : Transaction :=
  mkTransaction (t_id r) (transaction_id r) (user_id r) (amount r)
                (location r) (txn_time r) (txn_type r) s.

(** [UPDATE transactions SET status = 'FLAGGED' WHERE transaction_id = ?] *)
Definition flag_rows (tid : string) (db : Database) : Database :=
  mkDatabase (map (fun r => if has_tid tid r then set_status FLAGGED r else r)
                  (transactions db))
             (fraud_alerts db) (seq_transactions db) (seq_fraud_alerts db).

Definition update_status_flagged (tid : string) : Stmt unit :=
  fun db => Val (tt, flag_rows tid db).

(** [DELETE FROM fraud_alerts WHERE transaction_id = ?] *)
Definition clear_alerts (tid : string) (db : Database) : Database :=
  mkDatabase (transactions db)
             (filter (fun a => negb (alert_of tid a)) (fraud_alerts db))
             (seq_transactions db) (seq_fraud_alerts db).

Definition delete_alerts (tid : string) : Stmt unit :=
  fun db => Val (tt, clear_alerts tid db).

(** [DELETE FROM transactions WHERE transaction_id = ?] *)
Definition remove_rows (tid : string) (db : Database) : Database :=
  mkDatabase (filter (fun r => negb (has_tid tid r)) (transactions db))
             (fraud_alerts db) (seq_transactions db) (seq_fraud_alerts db).

Definition delete_rows (tid : string) : Stmt unit :=
  fun db => Val (tt, remove_rows tid db).

Definition set_fields (uid : string) (amt : Real) (loc : string) (t : Z) (ty : string)
    (r : Transaction) : Transaction :=
  mkTransaction (t_id r) (transaction_id r) uid amt loc t ty OK.

Definition rewrite_rows (tid uid : string) (amt : Real) (loc : string) (t : Z)
    (ty : string) (db : Database) : Database :=
  mkDatabase (map (fun r => if has_tid tid r then set_fields uid amt loc t ty r else r)
                  (transactions db))
             (fraud_alerts db) (seq_transactions db) (seq_fraud_alerts db).

(** [UPDATE transactions SET user_id = ?, amount = ?, location = ?,
    txn_time = ?, txn_type = ?, status = 'OK' WHERE transaction_id = ?];
    the [CHECK] on [txn_type] and the [NOT NULL] on [amount] are evaluated
    on the rows it rewrites. *)
Definition update_fields (tid uid : string) (amt : option Real) (loc : string)
    (t : Z) (ty : string) : Stmt unit :=
  fun db =>
    match amt with
    | Some a =>
        if existsb (has_tid tid) (transactions db) && negb (txn_type_ok ty)
        then Raise IntegrityError
        else Val (tt, rewrite_rows tid uid a loc t ty db)
    | None =>
        if existsb (has_tid tid) (transactions db)
        then Raise IntegrityError
        else Val (tt, db)
    end.

(** [LEFT JOIN] of [vw_suspicious]: the columns of an alert and, when a
    transaction carries its [transaction_id], that row's [location],
    [txn_time] and [txn_type]; [NULL]s otherwise. *)
Record Suspicious := mkSuspicious {
  s_alert : FraudAlert;
  s_location : option string;
  s_txn_time : option Z;
  s_txn_type : option string
}.

Definition join_alert (rows : list Transaction) (a : FraudAlert) : list Suspicious :=
  match filter (has_tid (fa_transaction_id a)) rows with
  | [] => [mkSuspicious a None None None]
  | ms => map (fun r => mkSuspicious a (Some (location r)) (Some (txn_time r))
                                     (Some (txn_type r))) ms
  end.

(** [ORDER BY flagged_at DESC], rows of one instant kept in table order. *)
Fixpoint insert_desc (x : Suspicious) (l : list Suspicious) : list Suspicious :=
  match l with
  | [] => [x]
  | y :: l' =>
      if fa_flagged_at (s_alert y) <? fa_flagged_at (s_alert x)
      then x :: l
      else y :: insert_desc x l'
  end.

Definition order_by_flagged_at_desc (l : list Suspicious) : list Suspicious :=
  fold_right insert_desc [] l.

Definition vw_suspicious (db : Database) : list Suspicious :=
  order_by_flagged_at_desc (flat_map (join_alert (transactions db)) (fraud_alerts db)).

(** [SELECT * FROM vw_suspicious ORDER BY flagged_at DESC] *)
Definition select_suspicious : Stmt (list Suspicious) :=
  fun db => Val (order_by_flagged_at_desc (vw_suspicious db), db).

(** ** Messages ([flash]) *)

Inductive Flash :=
| PleaseFillAllRequiredFields
| AmountMustBeGreaterThanZero
| InvalidAmountFormat
| TransactionIdAlreadyExists
| TransactionAddedSuccessfully
| TransactionUpdatedSuccessfully
| TransactionDeletedSuccessfully
| TransactionNotFound
| DatabaseError (e : SqliteError).

Inductive Category := error | success.

Definition category (f : Flash) : Category :=
  match f with
  | TransactionAddedSuccessfully
  | TransactionUpdatedSuccessfully
  | TransactionDeletedSuccessfully => success
  | _ => error
  end.

(** ** Connections ([sqlite3]) *)

(** What the file holds ([committed]), what the open transaction of the
    connection sees ([working]), which calls to the engine fail ([plan],
    by the number of the call, the connect being call 0) and how many
    calls were made so far ([calls]). *)
Record Connection := mkConnection {
  committed : Database;
  working : Database;
  closed : bool;
  plan : nat -> bool;
  calls : nat
}.

(** A request being handled: its connection and the messages flashed so
    far. *)
Record State := mkState {
  conn : Connection;
  flashed : list Flash
}.

Definition Sql (A : Type) := State -> Outcome A * State.

Definition ret {A} (a : A) : Sql A := fun s => (Val a, s).

Definition bind {A B} (m : Sql A) (k : A -> Sql B) : Sql B :=
  fun s =>
    match m s with
    | (Val a, s') => k a s'
    | (Raise e, s') => (Raise e, s')
    end.

Notation "x <- m ;; k" := (bind m (fun x => k))
  (at level 61, m at next level, right associativity).
Notation "m ;; k" := (bind m (fun _ => k))
  (at level 61, right associativity).

(** [try: body  except sqlite3.Error as e: handler e]; what the handler
    raises leaves the statement. *)
Definition try_except {A} (body : Sql A) (handler : SqliteError -> Sql A) : Sql A :=
  fun s =>
    match body s with
    | (Val a, s') => (Val a, s')
    | (Raise e, s') => handler e s'
    end.

(** [try: body  finally: final] *)
Definition try_finally {A} (body : Sql A) (final : State -> State) : Sql A :=
  fun s => let (r, s') := body s in (r, final s').

(** [flash(message, category)] *)
Definition flash (fl : Flash) : Sql unit :=
  fun s => (Val tt, mkState (conn s) (flashed s ++ [fl])).

(** Whether the engine fails the call a connection makes next, and the
    connection once that call is made. *)
Definition fails (c : Connection) : bool := plan c (calls c).

Definition called (c : Connection) (work file : Database) : Connection :=
  mkConnection file work (closed c) (plan c) (S (calls c)).

Definition with_conn (s : State) (c : Connection) : State := mkState c (flashed s).

(** [cursor.execute(...)] *)
Definition execute {A} (stmt : Stmt A) : Sql A :=
  fun s =>
    let c := conn s in
    if closed c then (Raise ProgrammingError, s)
    else if fails c
         then (Raise OperationalError, with_conn s (called c (working c) (committed c)))
         else match stmt (working c) with
              | Val (a, db) => (Val a, with_conn s (called c db (committed c)))
              | Raise e => (Raise e, with_conn s (called c (working c) (committed c)))
              end.

(** [conn.commit()] *)
Definition commit : Sql unit :=
  fun s =>
    let c := conn s in
    if closed c then (Raise ProgrammingError, s)
    else if fails c
         then (Raise OperationalError, with_conn s (called c (working c) (committed c)))
         else (Val tt, with_conn s (called c (working c) (working c))).

(** [conn.rollback()] *)
Definition rollback : Sql unit :=
  fun s =>
    let c := conn s in
    if closed c then (Raise ProgrammingError, s)
    else if fails c
         then (Raise OperationalError, with_conn s (called c (working c) (committed c)))
         else (Val tt, with_conn s (called c (committed c) (committed c))).

(** [conn.close()]: what was not committed is lost.  Closing is no call
    that the engine can fail ([sqlite3_close_v2] always returns). *)
Definition close (s : State) : State :=
  let c := conn s in
  with_conn s (mkConnection (committed c) (committed c) true (plan c) (calls c)).

(** [get_connection()]: [sqlite3.connect] is the first call to the
    engine. *)
Definition get_connection (plan : nat -> bool) (db : Database) : Outcome State :=
  if plan 0%nat then Raise OperationalError
  else Val (mkState (mkConnection db db false plan 1) []).

(** ** Requests and responses *)

Inductive Method := GET | POST.

(** The text of the [amount] field, by what [float()] makes of it: empty,
    rejected with [ValueError], read as a number, or read as not a number
    (['nan']). *)
Inductive AmountField := Blank | Malformed | Number (a : Real) | NotANumber.

Record Form := mkForm {
  form_transaction_id : string;
  form_user_id : string;
  form_amount : AmountField;
  form_location : string;
  form_txn_time : option Z;
  form_txn_type : string
}.

(** The clocks read during a request and the calls the engine fails. *)
Record Env := mkEnv {
  now_local : Z;
  now_utc : Z;
  faults : nat -> bool
}.

Inductive Page :=
| render_template (name : string)
| render_transaction (name : string) (row : Transaction)
| render_alerts (name : string) (alerts : list Suspicious)
| redirect (endpoint : string)
| internal_server_error.

(** The messages flashed during the request and the page sent back;
    [internal_server_error] is what Flask answers when an exception leaves
    the handler. *)
Definition Response := (list Flash * Page)%type.

(** What a request leaves behind: the messages, the page returned, or
    [crash] when an exception left the handler, and the file. *)
Definition answer {P} (crash : P) (r : Outcome P * State)
    : (list Flash * P) * Database :=
  let (o, s) := r in
  ((flashed s, match o with Val page => page | Raise _ => crash end),
   committed (conn s)).

(** Truth of a text: it is not empty. *)
Definition filled (s : string) : bool := negb (s =? "")%string.

Definition amount_filled (a : AmountField) : bool :=
  match a with Blank => false | _ => true end.

Definition time_filled (t : option Z) : bool :=
  match t with None => false | Some _ => true end.

(** A [float] of Python. *)
Inductive Float := Num (a : Real) | NaN.

(** [float(amount)]; [None] stands for [ValueError]. *)
Definition float (a : AmountField) : option Float :=
  match a with
  | Number x => Some (Num x)
  | NotANumber => Some NaN
  | _ => None
  end.

(** [amount <= bound] and [amount > bound] of Python: both are false of
    [nan]. *)
Definition float_le (x : Float) (bound : Q) : bool :=
  match x with Num a => Rle_bool a bound | NaN => false end.

Definition float_gt (x : Float) (bound : Q) : bool :=
  match x with Num a => Rgtb a bound | NaN => false end.

(** What [sqlite3] binds to a [?] for a [float]: [nan] goes as [NULL]. *)
Definition bind_real (x : Float) : option Real :=
  match x with Num a => Some a | NaN => None end.

(** ** Triggers ([create_triggers]) and handlers ([app.py]) *)

Section Handlers.

(** The text SQLite gives a [REAL] under [||]. *)
Variable sql_real_text : Real -> string.
(** The order in which SQLite fires two triggers of one event is not
    fixed by its documentation: [true] when [trg_flag_rapid_txns] runs
    before [trg_flag_high_amount], [false] when it runs after. *)
Variable rapid_first : bool.
(** The text Python gives a [float] that is a number in an f-string. *)
Variable py_float_text : Real -> string.

Definition float_text (x : Float) : string :=
  match x with Num a => py_float_text a | NaN => "nan" end.

Definition high_amount_reason (shown : string) : string :=
  "High amount transaction: ₹" ++ shown ++ " exceeds ₹10,000 limit".

Definition rapid_reason (n : nat) : string :=
  "Rapid transactions detected: " ++ count_text n ++ " transactions within 5 minutes".

(** [trg_flag_high_amount]: [AFTER INSERT ... WHEN NEW.amount > 10000]. *)
Definition trg_flag_high_amount (now : Z) (NEW : Transaction) (db : Database)
    : Database :=
  if Rgtb (amount NEW) 10000 then
    flag_rows (transaction_id NEW)
      (insert_alert_row now (transaction_id NEW) (user_id NEW) (amount NEW)
         (high_amount_reason (sql_real_text (amount NEW))) db)
  else db.

(** [trg_flag_rapid_txns]: the [INSERT ... SELECT ... HAVING COUNT( * ) > 5],
    then the [UPDATE] guarded by the same count. *)
Definition trg_flag_rapid_txns (now : Z) (NEW : Transaction) (db : Database)
    : Database :=
  let n := count_window (user_id NEW) (txn_time NEW) (transactions db) in
  let db1 :=
    if (5 <? n)%nat then
      insert_alert_row now (transaction_id NEW) (user_id NEW) (amount NEW)
        (rapid_reason n) db
    else db in
  if (5 <? count_window (user_id NEW) (txn_time NEW) (transactions db1))%nat
  then flag_rows (transaction_id NEW) db1
  else db1.

(** [INSERT INTO transactions (...) VALUES (?, ?, ?, ?, ?, ?, 'OK')]:
    [NOT NULL] on [amount], [UNIQUE] on [transaction_id], [CHECK] on
    [txn_type], then the two triggers on the new row. *)
Definition insert_transaction (now : Z) (tid uid : string) (amt : option Real)
    (loc : string) (t : Z) (ty : string) : Stmt unit :=
  fun db =>
    match amt with
    | None => Raise IntegrityError
    | Some a =>
        if existsb (has_tid tid) (transactions db) || negb (txn_type_ok ty)
        then Raise IntegrityError
        else
          let k := seq_transactions db + 1 in
          let NEW := mkTransaction k tid uid a loc t ty OK in
          let db1 := mkDatabase (transactions db ++ [NEW]) (fraud_alerts db)
                                k (seq_fraud_alerts db) in
          Val (tt, if rapid_first
                   then trg_flag_high_amount now NEW (trg_flag_rapid_txns now NEW db1)
                   else trg_flag_rapid_txns now NEW (trg_flag_high_amount now NEW db1))
    end.

(** A row that [INSERT OR IGNORE] skips still draws a key: the counter of
    [sqlite_sequence] moves on, the tables stay. *)
Definition skip_row (db : Database) : Database :=
  mkDatabase (transactions db) (fraud_alerts db)
             (seq_transactions db + 1) (seq_fraud_alerts db).

(** [insert_sample_data]: [INSERT OR IGNORE INTO transactions ...], a row
    that breaks a constraint being skipped. *)
Definition insert_or_ignore (now : Z)
    (r : string * string * Real * string * Z * string) (db : Database) : Database :=
  let '(tid, uid, amt, loc, t, ty) := r in
  match insert_transaction now tid uid (Some amt) loc t ty db with
  | Val (_, db') => db'
  | Raise _ => skip_row db
  end.

(** ['2024-01-15 10:00:00'] is the instant 1705312800. *)
Definition sample_transactions : list (string * string * Real * string * Z * string) :=
  [("TXN001", "USER001", Finite 5000, "Delhi", 1705312800, "Credit");
   ("TXN002", "USER001", Finite 12000, "Mumbai", 1705312860, "Debit");
   ("TXN003", "USER002", Finite 8000, "Bangalore", 1705316400, "Credit");
   ("TXN004", "USER001", Finite 1500, "Delhi", 1705312920, "Debit");
   ("TXN005", "USER001", Finite 2000, "Delhi", 1705312980, "Credit");
   ("TXN006", "USER001", Finite 3000, "Delhi", 1705313040, "Debit");
   ("TXN007", "USER001", Finite 2500, "Delhi", 1705313100, "Credit");
   ("TXN008", "USER001", Finite 1800, "Delhi", 1705313160, "Debit")].

Definition insert_sample_data (now : Z) (db : Database) : Database :=
  fold_left (fun db r => insert_or_ignore now r db) sample_transactions db.

(** *** [add_transaction] *)

(** The [try] statement; [None] when it ends without a [return]. *)
Definition add_body (now : Z) (tid uid : string) (amt : Float) (loc : string)
    (t : Z) (ty : string) : Sql (option Page) :=
  try_except
    (found <- execute (select_transaction_id tid) ;;
     match found with
     | _ :: _ =>
         flash TransactionIdAlreadyExists ;;
         ret (Some (render_template "add_transaction.html"))
     | [] =>
         execute (insert_transaction now tid uid (bind_real amt) loc t ty) ;;
         commit ;;
         flash TransactionAddedSuccessfully ;;
         ret (Some (redirect "view_transactions"))
     end)
    (fun e =>
       match e with
       | IntegrityError => flash TransactionIdAlreadyExists ;; rollback ;; ret None
       | _ => flash (DatabaseError e) ;; rollback ;; ret None
       end).

Definition add_transaction (m : Method) (f : Form) (env : Env) (db : Database)
    : Response * Database :=
  match m with
  | GET => (([], render_template "add_transaction.html"), db)
  | POST =>
      if negb (filled (form_transaction_id f) && filled (form_user_id f)
               && amount_filled (form_amount f) && filled (form_location f)
               && filled (form_txn_type f))
      then (([PleaseFillAllRequiredFields], render_template "add_transaction.html"), db)
      else
        match float (form_amount f) with
        | None => (([InvalidAmountFormat], render_template "add_transaction.html"), db)
        | Some amt =>
            if float_le amt 0
            then (([AmountMustBeGreaterThanZero],
                   render_template "add_transaction.html"), db)
            else
              let t := match form_txn_time f with
                       | None => now_local env
                       | Some t => t
                       end in
              match get_connection (faults env) db with
              | Raise _ => (([], internal_server_error), db)
              | Val s =>
                  answer internal_server_error
                    ((page <- try_finally
                                (add_body (now_utc env) (form_transaction_id f)
                                   (form_user_id f) amt (form_location f) t
                                   (form_txn_type f))
                                close ;;
                      ret (match page with
                           | Some p => p
                           | None => render_template "add_transaction.html"
                           end)) s)
              end
        end
  end.

(** *** [update_transaction] *)

Definition update_body (now : Z) (tid uid : string) (amt : Float) (loc : string)
    (t : Z) (ty : string) : Sql (option Page) :=
  try_except
    (execute (update_fields tid uid (bind_real amt) loc t ty) ;;
     commit ;;
     execute (delete_alerts tid) ;;
     (if float_gt amt 10000 then
        execute (insert_alert now tid uid (bind_real amt)
                   (high_amount_reason (float_text amt))) ;;
        execute (update_status_flagged tid)
      else ret tt) ;;
     n <- execute (select_count_window uid t) ;;
     (if (5 <? n)%nat then
        execute (insert_alert now tid uid (bind_real amt) (rapid_reason n)) ;;
        execute (update_status_flagged tid)
      else ret tt) ;;
     commit ;;
     flash TransactionUpdatedSuccessfully ;;
     ret (Some (redirect "view_transactions")))
    (fun e => flash (DatabaseError e) ;; rollback ;; ret None).

(** The [GET] part, also reached by a [POST] whose [try] block raised. *)
Definition edit_form (tid : string) : Sql Page :=
  try_finally
    (try_except
       (found <- execute (select_transaction tid) ;;
        match found with
        | [] => flash TransactionNotFound ;; ret (redirect "view_transactions")
        | row :: _ => ret (render_transaction "update_transaction.html" row)
        end)
       (fun e => flash (DatabaseError e) ;; ret (redirect "view_transactions")))
    close.

Definition refuse (fl : Flash) : Sql Page :=
  flash fl ;; ret (redirect "update_transaction").

Definition update_transaction (m : Method) (tid : string) (f : Form) (env : Env)
    (db : Database) : Response * Database :=
  match get_connection (faults env) db with
  | Raise _ => (([], internal_server_error), db)
  | Val s =>
      answer internal_server_error
        (match m with
         | GET => edit_form tid s
         | POST =>
             match form_txn_time f with
             | None => refuse PleaseFillAllRequiredFields s
             | Some t =>
                 if negb (filled (form_user_id f) && amount_filled (form_amount f)
                          && filled (form_location f) && filled (form_txn_type f))
                 then refuse PleaseFillAllRequiredFields s
                 else
                   match float (form_amount f) with
                   | None => refuse InvalidAmountFormat s
                   | Some amt =>
                       if float_le amt 0
                       then refuse AmountMustBeGreaterThanZero s
                       else
                         (page <- try_finally
                                    (update_body (now_utc env) tid (form_user_id f)
                                       amt (form_location f) t (form_txn_type f))
                                    close ;;
                          match page with
                          | Some p => ret p
                          | None => edit_form tid
                          end) s
                   end
             end
         end)
  end.

(** *** [delete_transaction] *)

Definition delete_body (tid : string) : Sql unit :=
  try_except
    (execute (delete_alerts tid) ;;
     execute (delete_rows tid) ;;
     commit ;;
     flash TransactionDeletedSuccessfully)
    (fun e => flash (DatabaseError e) ;; rollback).

Definition delete_transaction (tid : string) (env : Env) (db : Database)
    : Response * Database :=
  match get_connection (faults env) db with
  | Raise _ => (([], internal_server_error), db)
  | Val s =>
      answer internal_server_error
        ((try_finally (delete_body tid) close ;;
          ret (redirect "view_transactions")) s)
  end.

(** *** [fraud_alerts]

    The handler is named [fraud_alerts_page] here, [fraud_alerts] being
    the table. *)

Definition fraud_alerts_page (env : Env) (db : Database) : Response * Database :=
  match get_connection (faults env) db with
  | Raise _ => (([], internal_server_error), db)
  | Val s =>
      answer internal_server_error
        (try_finally
           (try_except
              (alerts <- execute select_suspicious ;;
               ret (render_alerts "fraud_alerts.html" alerts))
              (fun e =>
                 flash (DatabaseError e) ;;
                 ret (render_alerts "fraud_alerts.html" [])))
           close s)
  end.

(** *** [view_transactions] *)

(** [ORDER BY txn_time DESC]; SQL leaves the order of the rows of one
    instant open. *)
Fixpoint insert_by_time (x : Transaction) (l : list Transaction) : list Transaction :=
  match l with
  | [] => [x]
  | y :: l' =>
      if txn_time y <? txn_time x
      then x :: l
      else y :: insert_by_time x l'
  end.

Definition order_by_txn_time_desc (l : list Transaction) : list Transaction :=
  fold_right insert_by_time [] l.

(** [SELECT * FROM transactions ORDER BY txn_time DESC] *)
Definition select_transactions : Stmt (list Transaction) :=
  fun db => Val (order_by_txn_time_desc (transactions db), db).

(** [render_template('view_transactions.html', transactions=...)] *)
Inductive ListingPage :=
| render_transactions (name : string) (rows : list Transaction)
| listing_server_error.

Definition view_transactions (env : Env) (db : Database)
    : (list Flash * ListingPage) * Database :=
  match get_connection (faults env) db with
  | Raise _ => (([], listing_server_error), db)
  | Val s =>
      answer listing_server_error
        (try_finally
           (try_except
              (rows <- execute select_transactions ;;
               ret (render_transactions "view_transactions.html" rows))
              (fun e =>
                 flash (DatabaseError e) ;;
                 ret (render_transactions "view_transactions.html" [])))
           close s)
  end.

End Handlers.

(** * Reading the store *)

Local Open Scope list_scope.

(** [amount > bound], as a proposition. *)
Definition exceeds (a : Real) (bound : Q) : Prop :=
  match a with
  | Finite q => (bound < q)%Q
  | PlusInfinity => True
  | MinusInfinity => False
  end.

(** The engine serves every call of a request. *)
Definition served (env : Env) : Prop := forall k, faults env k = false.

(** The alerts that reference a transaction. *)
Definition alerts_for (tid : string) (db : Database) : list FraudAlert :=
  filter (alert_of tid) (fraud_alerts db).

(** Which rule wrote an alert, told by the head of its reason. *)
Definition is_high_amount (a : FraudAlert) : bool :=
  String.prefix "High amount transaction: " (fa_reason a).

Definition is_rapid (a : FraudAlert) : bool :=
  String.prefix "Rapid transactions detected: " (fa_reason a).

Definition high_alerts (tid : string) (db : Database) : list FraudAlert :=
  filter is_high_amount (alerts_for tid db).


Definition stored (tid : string) (db : Database) : bool :=
  existsb (has_tid tid) (transactions db).







(** The fields of a form pass the checks of a handler and the amount it
    carries is the number [amt]. *)
Definition passes_validation (f : Form) (amt : Real) : Prop :=
  filled (form_user_id f) = true /\
  filled (form_location f) = true /\
  filled (form_txn_type f) = true /\
  form_amount f = Number amt /\
  exceeds amt 0.

(** The instant [add_transaction] stores. *)
Definition resolved_time (f : Form) (env : Env) : Z :=
  match form_txn_time f with
  | None => now_local env
  | Some t => t
  end.

(** ** The effect of the handlers on the store *)

(** The store after a successful insert: the new row, then both triggers. *)
Definition created (sql_real_text : Real -> string) (rapid_first : bool) (now : Z)
    (tid uid : string) (amt : Real) (loc : string) (t : Z) (ty : string)
    (db : Database) : Database :=
  let k := seq_transactions db + 1 in
  let NEW := mkTransaction k tid uid amt loc t ty OK in
  let db1 := mkDatabase (transactions db ++ [NEW]) (fraud_alerts db)
                        k (seq_fraud_alerts db) in
  if rapid_first
  then trg_flag_high_amount sql_real_text now NEW (trg_flag_rapid_txns now NEW db1)
  else trg_flag_rapid_txns now NEW (trg_flag_high_amount sql_real_text now NEW db1).

(** The store after the statements of a successful update. *)
Definition high_step (py_float_text : Real -> string) (now : Z) (tid uid : string)
    (amt : Real) (db : Database) : Database :=
  if Rgtb amt 10000 then
    flag_rows tid
      (insert_alert_row now tid uid amt (high_amount_reason (py_float_text amt)) db)
  else db.

Definition rapid_step (now : Z) (tid uid : string) (amt : Real) (t : Z)
    (db : Database) : Database :=
  let n := count_window uid t (transactions db) in
  if (5 <? n)%nat then
    flag_rows tid (insert_alert_row now tid uid amt (rapid_reason n) db)
  else db.

Definition reevaluated (py_float_text : Real -> string) (now : Z) (tid uid : string)
    (amt : Real) (loc : string) (t : Z) (ty : string) (db : Database) : Database :=
  rapid_step now tid uid amt t
    (high_step py_float_text now tid uid amt
       (clear_alerts tid (rewrite_rows tid uid amt loc t ty db))).

(** The window count an update reads: over the rewritten table. *)
Definition count_rewritten (tid uid : string) (amt : Real) (loc : string) (t : Z)
    (ty : string) (db : Database) : nat :=
  count_window uid t (transactions (rewrite_rows tid uid amt loc t ty db)).

(** The alert of the high-amount rule and the alert of the velocity rule. *)
Definition high_alert (k : Z) (tid uid : string) (amt : Real) (shown : string)
    (now : Z) : FraudAlert :=
  mkFraudAlert k tid uid amt (high_amount_reason shown) now.

Definition rapid_alert (k : Z) (tid uid : string) (amt : Real) (n : nat)
    (now : Z) : FraudAlert :=
  mkFraudAlert k tid uid amt (rapid_reason n) now.

(** The alerts one evaluation writes, [seq] being the last key given out. *)
Definition produced (shown : string) (now seq : Z) (tid uid : string) (amt : Real)
    (n : nat) : list FraudAlert :=
  (if Rgtb amt 10000 then [high_alert (seq + 1) tid uid amt shown now] else [])
  ++ (if (5 <? n)%nat
      then [rapid_alert (seq + (if Rgtb amt 10000 then 2 else 1)) tid uid amt n now]
      else []).

(** The keys the two triggers give their alerts. *)
Definition high_key (rapid_first : bool) (seq : Z) (n : nat) : Z :=
  seq + (if rapid_first && (5 <? n)%nat then 2 else 1).


(** The alerts the two triggers write, in the order they fire. *)
Definition triggered (rapid_first : bool) (shown : string) (now seq : Z)
    (tid uid : string) (amt : Real) (n : nat) : list FraudAlert :=
  if rapid_first then
    (if (5 <? n)%nat then [rapid_alert (seq + 1) tid uid amt n now] else [])
    ++ (if Rgtb amt 10000
        then [high_alert (seq + (if (5 <? n)%nat then 2 else 1)) tid uid amt shown now]
        else [])
  else produced shown now seq tid uid amt n.

(** The status both paths leave on the evaluated row. *)
Definition derived_status (amt : Real) (n : nat) : Status :=
  if Rgtb amt 10000 || (5 <? n)%nat then FLAGGED else OK.

(** Status and alerts agree: a row is [FLAGGED] exactly when an alert
    references it; and no alert references a missing row. *)
Definition status_consistent (db : Database) : Prop :=
  forall r, In r (transactions db) ->
    (status r = FLAGGED <-> alerts_for (transaction_id r) db <> []).

Definition no_dangling (db : Database) : Prop :=
  forall a, In a (fraud_alerts db) -> stored (fa_transaction_id a) db = true.

Definition store_invariant (db : Database) : Prop :=
  status_consistent db /\ no_dangling db.

(** [UNIQUE] on [transaction_id]: no two rows carry one identifier. *)
Definition unique_ids (db : Database) : Prop :=
  NoDup (map transaction_id (transactions db)).

(** [AUTOINCREMENT] on [fraud_alerts.id]: the keys in the table are
    pairwise distinct and none is above the last key given out. *)
Definition keys_in_sequence (db : Database) : Prop :=
  NoDup (map fa_id (fraud_alerts db)) /\
  forall a, In a (fraud_alerts db) -> fa_id a <= seq_fraud_alerts db.

(** What validation and the [CHECK] constraint let into a row. *)
Definition row_well_formed (r : Transaction) : Prop :=
  filled (transaction_id r) = true /\
  filled (user_id r) = true /\
  filled (location r) = true /\
  txn_type_ok (txn_type r) = true /\
  exceeds (amount r) 0.

Definition rows_well_formed (db : Database) : Prop :=
  forall r, In r (transactions db) -> row_well_formed r.

(** The rows of one user. *)
Definition of_user (uid : string) (r : Transaction) : bool :=
  (user_id r =? uid)%string.

(** A list of instants that never goes up. *)
Fixpoint descending (l : list Z) : Prop :=
  match l with
  | [] => True
  | x :: l' => (forall y, In y l' -> y <= x) /\ descending l'
  end.

(** The identifier of a sample row. *)
Definition sample_id (r : string * string * Real * string * Z * string) : string :=
  fst (fst (fst (fst (fst r)))).

(** Creates sent one after the other, each in its own request. *)
Fixpoint create_all (sql_real_text : Real -> string) (rapid_first : bool)
    (reqs : list (Form * Env)) (db : Database) : Database :=
  match reqs with
  | [] => db
  | (f, env) :: rest =>
      create_all sql_real_text rapid_first rest
        (snd (add_transaction sql_real_text rapid_first POST f env db))
  end.

(** A burst: valid creates of one user, under identifiers that are free
    and distinct, with amounts of at most 10000 and instants that never go
    back, from [tprev] on and up to [hi]; each request is served. *)
Fixpoint burst (uid : string) (tprev hi : Z) (db : Database)
    (reqs : list (Form * Env)) : Prop :=
  match reqs with
  | [] => True
  | (f, env) :: rest =>
      served env /\
      filled (form_transaction_id f) = true /\
      txn_type_ok (form_txn_type f) = true /\
      form_user_id f = uid /\
      stored (form_transaction_id f) db = false /\
      ~ In (form_transaction_id f) (map (fun r => form_transaction_id (fst r)) rest) /\
      (exists amt, passes_validation f amt /\ ~ exceeds amt 10000) /\
      (exists t, form_txn_time f = Some t /\ tprev <= t <= hi /\
                 burst uid t hi db rest)
  end.

(** ** Sample requests *)

(** Both runtimes print a whole amount of at most fifteen digits with one
    zero decimal: [12000.0].  The samples hold no infinity; it is shown
    here as Python shows it. *)
Definition whole_real_text (a : Real) : string :=
  match a with
  | Finite q => (NilZero.string_of_int (Z.to_int (Qfloor q)) ++ ".0")%string
  | PlusInfinity => "inf"
  | MinusInfinity => "-inf"
  end.

(** An engine that serves every call, and one that fails the call of a
    given number (the connect is call 0) and serves the others. *)
Definition quiet : Env := mkEnv 1000 2000 (fun _ => false).

Definition failing (k : nat) : Env := mkEnv 1000 2000 (Nat.eqb k).

Definition request (tid uid : string) (amt : Real) (t : Z) : Form :=
  mkForm tid uid (Number amt) "Delhi" (Some t) "Debit".

Definition row (k : Z) (tid uid : string) (amt : Real) (t : Z) (s : Status)
    : Transaction :=
  mkTransaction k tid uid amt "Delhi" t "Debit" s.

(** Five transactions of one user within four minutes. *)
Definition five_in_four_minutes : Database :=
  mkDatabase
    [row 1 "TXN001" "USER001" 500 0 OK;
     row 2 "TXN002" "USER001" 600 60 OK;
     row 3 "TXN003" "USER001" 700 120 OK;
     row 4 "TXN004" "USER001" 800 180 OK;
     row 5 "TXN005" "USER001" 900 240 OK]
    [] 5 0.

(** One flagged transaction of 12000. *)
Definition one_flagged : Database :=
  mkDatabase
    [row 1 "TXN001" "USER001" 12000 600 FLAGGED]
    [high_alert 1 "TXN001" "USER001" 12000 "12000.0" 2000]
    1 1.

(** Scenario B: six transactions of one user within four minutes, sent one
    after the other to an empty store. *)
Definition six_in_four_minutes : list (Form * Env) :=
  [(request "TXN001" "USER001" 500 0, quiet);
   (request "TXN002" "USER001" 600 60, quiet);
   (request "TXN003" "USER001" 700 120, quiet);
   (request "TXN004" "USER001" 800 180, quiet);
   (request "TXN005" "USER001" 900 240, quiet);
   (request "TXN006" "USER001" 950 240, quiet)].

(** The store they leave. *)
Definition after_six : Database :=
  create_all whole_real_text true six_in_four_minutes empty_db.

(** One transaction of 500, no alert. *)
Definition one_ok : Database :=
  mkDatabase [row 1 "TXN001" "USER001" 500 600 OK] [] 1 0.

(** Scenario A: a transaction of 12000 is inserted in an empty store. *)
Definition scenario_a : Database :=
  snd (add_transaction whole_real_text true POST
         (request "TXN001" "USER001" 12000 600) quiet empty_db).



(** An update of an identifier that was never stored, then a create under
    that identifier. *)
Definition after_stray_update : Database :=
  snd (update_transaction whole_real_text POST "TXN404"
         (request "" "USER001" 20000 600) quiet empty_db).

Definition create_after_stray_update : Response * Database :=
  add_transaction whole_real_text true POST
    (request "TXN404" "USER001" 500 600) quiet after_stray_update.






(** An update of an identifier that is not stored, with ['nan'] as amount,
    for a user with six transactions in the window. *)
Definition nan_request : Form :=
  mkForm "" "USER001" NotANumber "Delhi" (Some 240) "Debit".

(** * Properties *)

Ltac run_sql :=
  unfold answer, refuse, try_finally, try_except, bind, ret, flash, execute,
    commit, rollback, close, get_connection, with_conn, called, fails; simpl.

(** Under an engine that serves every call. *)
Ltac serve Hf := repeat (rewrite ?Hf; simpl).

(** Every way the calls of a request can fail, one call after the other. *)
Ltac each_fault env :=
  repeat match goal with
         | |- context [faults env ?k] => destruct (faults env k) eqn:?; simpl
         end.

(** Every run of a handler on [db]: the calls that fail and the tests on
    the data, in the order the handler meets them. *)
Ltac walk env db :=
  repeat (match goal with
          | |- context [faults env ?k] => destruct (faults env k) eqn:?
          | |- context [filter (has_tid ?x) (transactions db)] =>
              destruct (filter (has_tid x) (transactions db)) eqn:?
          | |- context [existsb (has_tid ?x) (transactions db)] =>
              destruct (existsb (has_tid x) (transactions db)) eqn:?
          | |- context [txn_type_ok ?ty] => destruct (txn_type_ok ty) eqn:?
          | |- context [Rgtb ?a ?b] => destruct (Rgtb a b) eqn:?
          | |- context [(5 <? ?n)%nat] => destruct (5 <? n)%nat eqn:?
          end; simpl).

Ltac proj_db :=
  unfold flag_rows, insert_alert_row;
  cbn [transactions fraud_alerts seq_transactions seq_fraud_alerts
       transaction_id user_id amount txn_time orb].

Ltac rows_case tid r :=
  unfold has_tid, set_status, set_fields; cbn;
  destruct (transaction_id r =? tid)%string eqn:?E;
  repeat (cbn;
          match goal with
          | H : (transaction_id r =? tid)%string = _ |- _ => rewrite H
          end);
  cbn; try reflexivity.

(** ** Texts and comparisons *)

Lemma prefix_app (p s : string) : String.prefix p (p ++ s)%string = true.
Proof.
  induction p as [|c p IH]; simpl.
  - destruct s; reflexivity.
  - destruct (Ascii.ascii_dec c c) as [_|ne]; [exact IH | congruence].
Qed.

Lemma contains_prefix (sub s : string) :
  String.prefix sub s = true -> contains sub s = true.
Proof.
  intro H. destruct s; simpl; simpl in H; rewrite H; reflexivity.
Qed.

Lemma contains_skip (pre sub s : string) :
  contains sub s = true -> contains sub (pre ++ s)%string = true.
Proof.
  intro H. induction pre as [|c pre IH]; simpl.
  - exact H.
  - rewrite IH. apply orb_true_r.
Qed.

Lemma contains_app (pre sub post : string) :
  contains sub (pre ++ sub ++ post)%string = true.
Proof. apply contains_skip, contains_prefix, prefix_app. Qed.

Lemma Rgtb_exceeds (a : Real) (bound : Q) : Rgtb a bound = true <-> exceeds a bound.
Proof.
  unfold Rgtb. destruct a as [q| |]; simpl.
  - rewrite negb_true_iff, <- not_true_iff_false, Qle_bool_iff.
    split; [apply Qnot_le_lt | apply Qlt_not_le].
  - tauto.
  - split; [discriminate | contradiction].
Qed.

Lemma Rgtb_not_exceeds (a : Real) (bound : Q) :
  Rgtb a bound = false <-> ~ exceeds a bound.
Proof.
  rewrite <- Rgtb_exceeds. destruct (Rgtb a bound); split; congruence.
Qed.

Lemma Rle_bool_pos (a : Real) : exceeds a 0 -> Rle_bool a 0 = false.
Proof.
  intro H. apply Rgtb_exceeds in H. unfold Rgtb in H.
  apply negb_true_iff, H.
Qed.

Lemma Rle_bool_not_pos (a : Real) : Rle_bool a 0 = false -> exceeds a 0.
Proof.
  intro H. apply Rgtb_exceeds. unfold Rgtb. rewrite H. reflexivity.
Qed.

Lemma high_reason_shows_amount (shown : string) :
  contains shown (high_amount_reason shown) = true.
Proof. unfold high_amount_reason. apply contains_app. Qed.

Lemma high_reason_shows_threshold (shown : string) :
  contains "10,000" (high_amount_reason shown) = true.
Proof.
  unfold high_amount_reason.
  change (" exceeds ₹10,000 limit")%string
    with (" exceeds ₹" ++ "10,000" ++ " limit")%string.
  do 2 apply contains_skip. apply contains_app.
Qed.

Lemma rapid_reason_shows_count (n : nat) :
  contains (count_text n) (rapid_reason n) = true.
Proof. unfold rapid_reason. apply contains_app. Qed.

(** ** Lists of rows *)

Lemma existsb_false_filter {A} (p : A -> bool) (l : list A) :
  existsb p l = false -> filter p l = [].
Proof.
  induction l as [|x l IH]; simpl; [reflexivity|].
  destruct (p x); simpl; [discriminate | exact IH].
Qed.

Lemma filter_none_id {A} (p : A -> bool) (l : list A) :
  existsb p l = false -> filter (fun x => negb (p x)) l = l.
Proof.
  induction l as [|x l IH]; simpl; [reflexivity|].
  destruct (p x); simpl; [discriminate | intro H; f_equal; auto].
Qed.

Lemma filter_nil_existsb {A} (p : A -> bool) (l : list A) :
  filter p l = [] -> existsb p l = false.
Proof.
  induction l as [|x l IH]; simpl; [reflexivity|].
  destruct (p x); simpl; [discriminate | exact IH].
Qed.

Lemma filter_cleared {A} (p : A -> bool) (l : list A) :
  filter p (filter (fun x => negb (p x)) l) = [].
Proof.
  induction l as [|x l IH]; simpl; [reflexivity|].
  destruct (p x) eqn:E; simpl; [exact IH | rewrite E; exact IH].
Qed.

Lemma map_absent (tid : string) (g : Transaction -> Transaction) rows :
  existsb (has_tid tid) rows = false ->
  map (fun r => if has_tid tid r then g r else r) rows = rows.
Proof.
  induction rows as [|r rows IH]; simpl; [reflexivity|].
  destruct (has_tid tid r); simpl; [discriminate|].
  intro H. f_equal. exact (IH H).
Qed.

Lemma alert_of_other (tid other : string) (l : list FraudAlert) :
  other <> tid ->
  filter (alert_of other) (filter (fun a => negb (alert_of tid a)) l) =
  filter (alert_of other) l.
Proof.
  intro Hne. induction l as [|a l IH]; simpl; [reflexivity|].
  destruct (alert_of tid a) eqn:E1, (alert_of other a) eqn:E2; simpl;
    rewrite ?E2, ?IH; try reflexivity.
  unfold alert_of in E1, E2.
  apply String.eqb_eq in E1. apply String.eqb_eq in E2. congruence.
Qed.

(** ** What the handlers do when the engine serves every call *)

Lemma add_transaction_success sql_real_text rapid_first f env db amt :
  served env ->
  filled (form_transaction_id f) = true ->
  passes_validation f amt ->
  txn_type_ok (form_txn_type f) = true ->
  stored (form_transaction_id f) db = false ->
  add_transaction sql_real_text rapid_first POST f env db =
    (([TransactionAddedSuccessfully], redirect "view_transactions"),
     created sql_real_text rapid_first (now_utc env) (form_transaction_id f) (form_user_id f)
             amt (form_location f) (resolved_time f env) (form_txn_type f) db).
Proof.
  intros Hf Hid (Hu & Hl & Hty & Ha & Hpos) Hok Hnew.
  unfold add_transaction. rewrite Hid, Hu, Hl, Hty, Ha. simpl.
  rewrite (Rle_bool_pos _ Hpos).
  unfold add_body, select_transaction_id, insert_transaction. run_sql.
  serve Hf.
  unfold stored in Hnew.
  rewrite (existsb_false_filter _ _ Hnew). simpl. serve Hf.
  rewrite Hnew, Hok. simpl. serve Hf. reflexivity.
Qed.

Lemma update_transaction_success py_float_text tid f env db amt t :
  served env ->
  passes_validation f amt ->
  form_txn_time f = Some t ->
  (stored tid db = true -> txn_type_ok (form_txn_type f) = true) ->
  update_transaction py_float_text POST tid f env db =
    (([TransactionUpdatedSuccessfully], redirect "view_transactions"),
     reevaluated py_float_text (now_utc env) tid (form_user_id f) amt
                 (form_location f) t (form_txn_type f) db).
Proof.
  intros Hf (Hu & Hl & Hty & Ha & Hpos) Ht Hok.
  unfold update_transaction, get_connection. rewrite Hf, Ht, Hu, Hl, Hty, Ha. simpl.
  rewrite (Rle_bool_pos _ Hpos).
  unfold update_body, update_fields. run_sql. serve Hf.
  assert (G : existsb (has_tid tid) (transactions db)
              && negb (txn_type_ok (form_txn_type f)) = false).
  { unfold stored in Hok. destruct (existsb (has_tid tid) (transactions db)).
    - rewrite Hok; reflexivity.
    - reflexivity. }
  rewrite G. simpl. serve Hf.
  unfold reevaluated, high_step, rapid_step.
  destruct (Rgtb amt 10000); simpl; serve Hf;
    match goal with
    | |- context [(5 <? ?n)%nat] => destruct (5 <? n)%nat
    end; serve Hf; reflexivity.
Qed.

Lemma delete_transaction_success tid env db :
  served env ->
  delete_transaction tid env db =
    (([TransactionDeletedSuccessfully], redirect "view_transactions"),
     remove_rows tid (clear_alerts tid db)).
Proof.
  intro Hf. unfold delete_transaction, delete_body. run_sql. serve Hf.
  reflexivity.
Qed.

(** ** The status of a row plays no part in the window *)

Lemma count_window_map uid t (g : Transaction -> Transaction) rows :
  (forall r, in_window uid t (g r) = in_window uid t r) ->
  count_window uid t (map g rows) = count_window uid t rows.
Proof.
  intro Hg. unfold count_window.
  induction rows as [|r rows IH]; simpl; [reflexivity|].
  rewrite Hg. destruct (in_window uid t r); simpl; congruence.
Qed.

Lemma count_window_flagged uid t tid s rows :
  count_window uid t
    (map (fun r => if has_tid tid r then set_status s r else r) rows) =
  count_window uid t rows.
Proof.
  apply count_window_map. intro r. destruct (has_tid tid r); reflexivity.
Qed.

Lemma count_window_app uid t rows rows' :
  count_window uid t (rows ++ rows') =
  (count_window uid t rows + count_window uid t rows')%nat.
Proof. unfold count_window. rewrite filter_app, length_app. reflexivity. Qed.

Lemma in_window_self uid t r :
  user_id r = uid -> txn_time r = t -> in_window uid t r = true.
Proof.
  intros Hu Ht. unfold in_window. rewrite Hu, Ht, String.eqb_refl. simpl.
  apply andb_true_iff; split; apply Z.leb_le; lia.
Qed.

(** ** The store after an update, table by table *)

Section UpdateEffect.

Variable py_float_text : Real -> string.
Variables (now : Z) (tid uid : string) (amt : Real) (loc : string) (t : Z) (ty : string).
Variable db : Database.

Lemma reevaluated_fraud_alerts :
  fraud_alerts (reevaluated py_float_text now tid uid amt loc t ty db) =
    filter (fun a => negb (alert_of tid a)) (fraud_alerts db)
    ++ produced (py_float_text amt) now (seq_fraud_alerts db) tid uid amt
                (count_rewritten tid uid amt loc t ty db).
Proof.
  unfold reevaluated, rapid_step, high_step, produced, count_rewritten,
    high_alert, rapid_alert.
  destruct (Rgtb amt 10000); proj_db; rewrite ?count_window_flagged;
    unfold clear_alerts, rewrite_rows; proj_db;
    match goal with |- context [(5 <? ?m)%nat] => destruct (5 <? m)%nat end;
    proj_db; rewrite <- ?app_assoc; simpl app; rewrite ?app_nil_r;
    try replace (seq_fraud_alerts db + 1 + 1) with (seq_fraud_alerts db + 2) by lia;
    reflexivity.
Qed.

Lemma reevaluated_transactions :
  transactions (reevaluated py_float_text now tid uid amt loc t ty db) =
    map (fun r =>
           if has_tid tid r
           then mkTransaction (t_id r) (transaction_id r) uid amt loc t ty
                  (derived_status amt (count_rewritten tid uid amt loc t ty db))
           else r)
        (transactions db).
Proof.
  unfold reevaluated, rapid_step, high_step, derived_status, count_rewritten.
  destruct (Rgtb amt 10000); proj_db; rewrite ?count_window_flagged;
    unfold clear_alerts, rewrite_rows; proj_db;
    match goal with |- context [(5 <? ?m)%nat] => destruct (5 <? m)%nat end;
    proj_db; rewrite ?map_map; apply map_ext; intro r; rows_case tid r.
Qed.

Lemma reevaluated_count :
  count_window uid t
    (transactions (reevaluated py_float_text now tid uid amt loc t ty db)) =
  count_rewritten tid uid amt loc t ty db.
Proof.
  rewrite reevaluated_transactions. unfold count_rewritten, rewrite_rows.
  proj_db. unfold count_window. rewrite !filter_map_swap, !length_map. f_equal.
  apply filter_ext. intro r. unfold Basics.compose.
  destruct (has_tid tid r); reflexivity.
Qed.

End UpdateEffect.

(** ** The store after an insert, table by table *)

Section CreateEffect.

Variable sql_real_text : Real -> string.
Variable rapid_first : bool.
Variables (now : Z) (tid uid : string) (amt : Real) (loc : string) (t : Z) (ty : string).
Variable db : Database.

Lemma count_window_new_row s :
  count_window uid t
    (transactions db ++ [mkTransaction (seq_transactions db + 1) tid uid amt loc t ty s])
  = S (count_window uid t (transactions db)).
Proof.
  rewrite count_window_app. unfold count_window at 2. simpl.
  rewrite in_window_self by reflexivity. simpl. lia.
Qed.

Lemma created_fraud_alerts :
  fraud_alerts (created sql_real_text rapid_first now tid uid amt loc t ty db) =
    fraud_alerts db
    ++ triggered rapid_first (sql_real_text amt) now (seq_fraud_alerts db)
                 tid uid amt (S (count_window uid t (transactions db))).
Proof.
  unfold created, triggered, produced, trg_flag_rapid_txns,
    trg_flag_high_amount, high_alert, rapid_alert.
  destruct rapid_first; proj_db; destruct (Rgtb amt 10000); proj_db;
    rewrite ?count_window_flagged, ?count_window_new_row;
    destruct (5 <? S (count_window uid t (transactions db)))%nat eqn:E; proj_db;
    rewrite ?count_window_flagged, ?count_window_new_row, ?E; proj_db;
    rewrite <- ?app_assoc; simpl app; rewrite ?app_nil_r;
    try replace (seq_fraud_alerts db + 1 + 1) with (seq_fraud_alerts db + 2) by lia;
    reflexivity.
Qed.

Hypothesis fresh : stored tid db = false.

Lemma flag_new_row s s' :
  map (fun r => if has_tid tid r then set_status s' r else r)
      (transactions db
       ++ [mkTransaction (seq_transactions db + 1) tid uid amt loc t ty s])
  = transactions db
    ++ [mkTransaction (seq_transactions db + 1) tid uid amt loc t ty s'].
Proof.
  rewrite map_app, map_absent by exact fresh. simpl.
  unfold has_tid; simpl. rewrite String.eqb_refl. reflexivity.
Qed.

Lemma created_transactions :
  transactions (created sql_real_text rapid_first now tid uid amt loc t ty db) =
    transactions db
    ++ [mkTransaction (seq_transactions db + 1) tid uid amt loc t ty
          (derived_status amt (S (count_window uid t (transactions db))))].
Proof.
  unfold created, trg_flag_rapid_txns, trg_flag_high_amount, derived_status.
  destruct rapid_first; proj_db; destruct (Rgtb amt 10000); proj_db;
    rewrite ?count_window_flagged, ?count_window_new_row;
    destruct (5 <? S (count_window uid t (transactions db)))%nat eqn:E; proj_db;
    rewrite ?count_window_flagged, ?count_window_new_row, ?E; proj_db;
    rewrite ?flag_new_row; reflexivity.
Qed.


End CreateEffect.

(** ** The alerts one evaluation writes *)

Lemma is_high_amount_high k tid uid amt shown now :
  is_high_amount (high_alert k tid uid amt shown now) = true.
Proof. reflexivity. Qed.

Lemma is_rapid_high k tid uid amt shown now :
  is_rapid (high_alert k tid uid amt shown now) = false.
Proof. reflexivity. Qed.

Lemma is_high_amount_rapid k tid uid amt n now :
  is_high_amount (rapid_alert k tid uid amt n now) = false.
Proof. reflexivity. Qed.

Lemma is_rapid_rapid k tid uid amt n now :
  is_rapid (rapid_alert k tid uid amt n now) = true.
Proof.
  unfold is_rapid, rapid_alert, rapid_reason. cbn [fa_reason].
  apply prefix_app.
Qed.

Section Produced.

Variables (shown : string) (now seq : Z) (tid uid : string) (amt : Real) (n : nat).

Lemma produced_own :
  filter (alert_of tid) (produced shown now seq tid uid amt n) =
  produced shown now seq tid uid amt n.
Proof.
  unfold produced. destruct (Rgtb amt 10000), (5 <? n)%nat; simpl;
    unfold alert_of; simpl; rewrite ?String.eqb_refl; reflexivity.
Qed.

Lemma produced_other other :
  other <> tid ->
  filter (alert_of other) (produced shown now seq tid uid amt n) = [].
Proof.
  intro Hne. apply String.eqb_neq in Hne. rewrite String.eqb_sym in Hne.
  unfold produced. destruct (Rgtb amt 10000), (5 <? n)%nat; simpl;
    unfold alert_of; simpl; rewrite ?Hne; reflexivity.
Qed.

Lemma produced_high :
  filter is_high_amount (produced shown now seq tid uid amt n) =
  if Rgtb amt 10000 then [high_alert (seq + 1) tid uid amt shown now] else [].
Proof.
  unfold produced. destruct (Rgtb amt 10000), (5 <? n)%nat;
    cbn [app filter];
    rewrite ?is_high_amount_high, ?is_high_amount_rapid, ?is_rapid_high,
      ?is_rapid_rapid; reflexivity.
Qed.


Lemma produced_nil :
  Rgtb amt 10000 = false -> (5 <? n)%nat = false ->
  produced shown now seq tid uid amt n = [].
Proof. intros H1 H2. unfold produced. rewrite H1, H2. reflexivity. Qed.

Lemma produced_flags :
  produced shown now seq tid uid amt n <> [] <-> derived_status amt n = FLAGGED.
Proof.
  unfold produced, derived_status.
  destruct (Rgtb amt 10000), (5 <? n)%nat; simpl; split; congruence.
Qed.

End Produced.

Section Triggered.

Variables (rapid_first : bool) (shown : string) (now seq : Z).
Variables (tid uid : string) (amt : Real) (n : nat).

Lemma triggered_own :
  filter (alert_of tid) (triggered rapid_first shown now seq tid uid amt n) =
  triggered rapid_first shown now seq tid uid amt n.
Proof.
  unfold triggered. destruct rapid_first; [|apply produced_own].
  destruct (Rgtb amt 10000), (5 <? n)%nat; simpl;
    unfold alert_of; simpl; rewrite ?String.eqb_refl; reflexivity.
Qed.

Lemma triggered_other other :
  other <> tid ->
  filter (alert_of other) (triggered rapid_first shown now seq tid uid amt n) = [].
Proof.
  intro Hne. unfold triggered.
  destruct rapid_first; [|apply produced_other, Hne].
  apply String.eqb_neq in Hne. rewrite String.eqb_sym in Hne.
  destruct (Rgtb amt 10000), (5 <? n)%nat; simpl;
    unfold alert_of; simpl; rewrite ?Hne; reflexivity.
Qed.

Lemma triggered_high :
  filter is_high_amount (triggered rapid_first shown now seq tid uid amt n) =
  if Rgtb amt 10000
  then [high_alert (high_key rapid_first seq n) tid uid amt shown now]
  else [].
Proof.
  unfold triggered, high_key.
  destruct rapid_first; [|rewrite produced_high; reflexivity].
  destruct (Rgtb amt 10000), (5 <? n)%nat; cbn [app filter andb];
    rewrite ?is_high_amount_high, ?is_high_amount_rapid; reflexivity.
Qed.


Lemma triggered_flags :
  triggered rapid_first shown now seq tid uid amt n <> [] <->
  derived_status amt n = FLAGGED.
Proof.
  unfold triggered. destruct rapid_first; [|apply produced_flags].
  unfold derived_status.
  destruct (Rgtb amt 10000), (5 <? n)%nat; simpl; split; congruence.
Qed.

Lemma high_key_fresh : seq < high_key rapid_first seq n.
Proof. unfold high_key. destruct (rapid_first && (5 <? n)%nat); lia. Qed.


End Triggered.

(** ** The alerts of a transaction after each operation *)

Lemma alerts_for_created sql_real_text rapid_first now tid uid amt loc t ty db :
  alerts_for tid (created sql_real_text rapid_first now tid uid amt loc t ty db) =
  alerts_for tid db
  ++ triggered rapid_first (sql_real_text amt) now (seq_fraud_alerts db) tid uid
               amt (S (count_window uid t (transactions db))).
Proof.
  unfold alerts_for. rewrite created_fraud_alerts, filter_app, triggered_own.
  reflexivity.
Qed.

Lemma alerts_for_created_other sql_real_text rapid_first now tid uid amt loc t ty db other :
  other <> tid ->
  alerts_for other (created sql_real_text rapid_first now tid uid amt loc t ty db) =
  alerts_for other db.
Proof.
  intro Hne. unfold alerts_for.
  rewrite created_fraud_alerts, filter_app, triggered_other by exact Hne.
  apply app_nil_r.
Qed.

Lemma alerts_for_reevaluated py_float_text now tid uid amt loc t ty db :
  alerts_for tid (reevaluated py_float_text now tid uid amt loc t ty db) =
  produced (py_float_text amt) now (seq_fraud_alerts db) tid uid amt
           (count_rewritten tid uid amt loc t ty db).
Proof.
  unfold alerts_for.
  rewrite reevaluated_fraud_alerts, filter_app, produced_own, filter_cleared.
  reflexivity.
Qed.

Lemma alerts_for_reevaluated_other py_float_text now tid uid amt loc t ty db other :
  other <> tid ->
  alerts_for other (reevaluated py_float_text now tid uid amt loc t ty db) =
  alerts_for other db.
Proof.
  intro Hne. unfold alerts_for.
  rewrite reevaluated_fraud_alerts, filter_app, produced_other by exact Hne.
  rewrite app_nil_r. apply alert_of_other, Hne.
Qed.

(** ** The evaluated row after each operation *)

Lemma created_row_status sql_real_text rapid_first now tid uid amt loc t ty db r :
  stored tid db = false ->
  In r (transactions (created sql_real_text rapid_first now tid uid amt loc t ty db)) ->
  transaction_id r = tid ->
  r = mkTransaction (seq_transactions db + 1) tid uid amt loc t ty
        (derived_status amt (S (count_window uid t (transactions db)))).
Proof.
  intros Hnew Hin Hid. rewrite created_transactions in Hin by exact Hnew.
  apply in_app_or in Hin. destruct Hin as [Hold | [Hr | []]].
  - exfalso. unfold stored in Hnew.
    assert (existsb (has_tid tid) (transactions db) = true) as Hex.
    { apply existsb_exists. exists r. split; [exact Hold|].
      unfold has_tid. apply String.eqb_eq, Hid. }
    congruence.
  - symmetry. exact Hr.
Qed.

Lemma created_stored sql_real_text rapid_first now tid uid amt loc t ty db :
  stored tid db = false ->
  stored tid (created sql_real_text rapid_first now tid uid amt loc t ty db) = true.
Proof.
  intro Hnew. unfold stored. rewrite created_transactions by exact Hnew.
  rewrite existsb_app. simpl. unfold has_tid at 2. simpl.
  rewrite String.eqb_refl. simpl. apply orb_true_r.
Qed.

Lemma reevaluated_row_status py_float_text now tid uid amt loc t ty db r :
  In r (transactions (reevaluated py_float_text now tid uid amt loc t ty db)) ->
  transaction_id r = tid ->
  user_id r = uid /\ amount r = amt /\ location r = loc /\ txn_time r = t /\
  txn_type r = ty /\
  status r = derived_status amt (count_rewritten tid uid amt loc t ty db).
Proof.
  intros Hin Hid. rewrite reevaluated_transactions in Hin.
  apply in_map_iff in Hin. destruct Hin as (r0 & Hr & _).
  destruct (has_tid tid r0) eqn:E.
  - subst r. simpl. repeat split; reflexivity.
  - subst r. unfold has_tid in E. apply String.eqb_neq in E. contradiction.
Qed.

Lemma reevaluated_stored py_float_text now tid uid amt loc t ty db other :
  stored other (reevaluated py_float_text now tid uid amt loc t ty db) =
  stored other db.
Proof.
  unfold stored. rewrite reevaluated_transactions.
  induction (transactions db) as [|r rows IH]; simpl; [reflexivity|].
  rewrite IH. f_equal. unfold has_tid.
  destruct (transaction_id r =? tid)%string; reflexivity.
Qed.

(** ** The high-amount rule *)

Lemma high_alerts_created sql_real_text rapid_first now tid uid amt loc t ty db :
  high_alerts tid (created sql_real_text rapid_first now tid uid amt loc t ty db) =
  high_alerts tid db
  ++ (if Rgtb amt 10000
      then [high_alert (high_key rapid_first (seq_fraud_alerts db)
                                 (S (count_window uid t (transactions db))))
                       tid uid amt (sql_real_text amt) now]
      else []).
Proof.
  unfold high_alerts. rewrite alerts_for_created, filter_app, triggered_high.
  reflexivity.
Qed.

Lemma high_alerts_reevaluated py_float_text now tid uid amt loc t ty db :
  high_alerts tid (reevaluated py_float_text now tid uid amt loc t ty db) =
  if Rgtb amt 10000
  then [high_alert (seq_fraud_alerts db + 1) tid uid amt (py_float_text amt) now]
  else [].
Proof.
  unfold high_alerts. rewrite alerts_for_reevaluated, produced_high.
  reflexivity.
Qed.

Lemma derived_status_high amt n : Rgtb amt 10000 = true -> derived_status amt n = FLAGGED.
Proof. intro H. unfold derived_status. rewrite H. reflexivity. Qed.

Lemma derived_status_rapid amt n : (5 <? n)%nat = true -> derived_status amt n = FLAGGED.
Proof. intro H. unfold derived_status. rewrite H, orb_true_r. reflexivity. Qed.

Lemma derived_status_quiet amt n :
  Rgtb amt 10000 = false -> (5 <? n)%nat = false -> derived_status amt n = OK.
Proof. intros H1 H2. unfold derived_status. rewrite H1, H2. reflexivity. Qed.

(** C1, as amended.  A create that goes through adds exactly one
    high-amount alert for the new transaction, under a fresh key, when its
    amount exceeds 10000 and none otherwise; after an update the alerts of
    the transaction hold exactly one high-amount alert when the submitted
    amount exceeds 10000 and none otherwise.  When the rule fires, every
    stored row of that transaction is FLAGGED.  The reason of the alert
    contains the amount as the runtime prints it and the threshold written
    [10,000]. *)
Theorem high_amount_rule
    (sql_real_text py_float_text : Real -> string) (rapid_first : bool)
    (tid : string) (f : Form) (env : Env) (db : Database) (amt : Real) :
  served env ->
  passes_validation f amt ->
  txn_type_ok (form_txn_type f) = true ->
  let uid := form_user_id f in
  let now := now_utc env in
  (filled tid = true -> form_transaction_id f = tid -> stored tid db = false ->
   let db' := snd (add_transaction sql_real_text rapid_first POST f env db) in
   exists k,
     seq_fraud_alerts db < k /\
     let a := high_alert k tid uid amt (sql_real_text amt) now in
     (exceeds amt 10000 ->
      high_alerts tid db' = high_alerts tid db ++ [a] /\
      (forall r, In r (transactions db') -> transaction_id r = tid ->
                 status r = FLAGGED)) /\
     (~ exceeds amt 10000 -> high_alerts tid db' = high_alerts tid db) /\
     stored tid db' = true /\
     contains (sql_real_text amt) (fa_reason a) = true /\
     contains "10,000" (fa_reason a) = true)
  /\
  (forall t, form_txn_time f = Some t ->
   let db' := snd (update_transaction py_float_text POST tid f env db) in
   let a := high_alert (seq_fraud_alerts db + 1) tid uid amt
                       (py_float_text amt) now in
   (exceeds amt 10000 ->
    high_alerts tid db' = [a] /\
    (forall r, In r (transactions db') -> transaction_id r = tid ->
               status r = FLAGGED)) /\
   (~ exceeds amt 10000 -> high_alerts tid db' = []) /\
   stored tid db' = stored tid db /\
   contains (py_float_text amt) (fa_reason a) = true /\
   contains "10,000" (fa_reason a) = true).
Proof.
  intros Hf Hv Hty uid now. split.
  - intros Hid Htid Hnew db'. subst tid.
    assert (E : db' = created sql_real_text rapid_first now
                        (form_transaction_id f) uid amt (form_location f)
                        (resolved_time f env) (form_txn_type f) db).
    { subst db'. rewrite add_transaction_success with (amt := amt); auto. }
    rewrite E. clear E db'.
    exists (high_key rapid_first (seq_fraud_alerts db)
              (S (count_window uid (resolved_time f env) (transactions db)))).
    split; [apply high_key_fresh|].
    split; [intro Hgt; split | split; [intro Hle | split; [|split]]].
    + rewrite high_alerts_created. apply Rgtb_exceeds in Hgt. rewrite Hgt.
      reflexivity.
    + intros r Hin Hr. apply created_row_status in Hin; auto.
      rewrite Hin. simpl. apply derived_status_high, Rgtb_exceeds, Hgt.
    + rewrite high_alerts_created. apply Rgtb_not_exceeds in Hle.
      rewrite Hle. apply app_nil_r.
    + apply created_stored, Hnew.
    + apply high_reason_shows_amount.
    + apply high_reason_shows_threshold.
  - intros t Ht db' a.
    assert (E : db' = reevaluated py_float_text now tid uid amt
                        (form_location f) t (form_txn_type f) db).
    { subst db'. rewrite update_transaction_success with (amt := amt) (t := t); auto. }
    rewrite E. clear E db'.
    split; [intro Hgt; split | split; [intro Hle | split; [|split]]].
    + rewrite high_alerts_reevaluated. apply Rgtb_exceeds in Hgt. rewrite Hgt.
      reflexivity.
    + intros r Hin Hr. apply reevaluated_row_status in Hin; auto.
      destruct Hin as (_ & _ & _ & _ & _ & Hs). rewrite Hs.
      apply derived_status_high, Rgtb_exceeds, Hgt.
    + rewrite high_alerts_reevaluated. apply Rgtb_not_exceeds in Hle.
      rewrite Hle. reflexivity.
    + apply reevaluated_stored.
    + apply high_reason_shows_amount.
    + apply high_reason_shows_threshold.
Qed.

Lemma high_amount_rule_witness :
  exists k,
    high_alerts "TXN001" scenario_a
    = [high_alert k "TXN001" "USER001" 12000 "12000.0" 2000].
Proof.
  destruct (high_amount_rule whole_real_text whole_real_text true "TXN001"
              (request "TXN001" "USER001" 12000 600) quiet empty_db 12000
              (fun _ => eq_refl)
              (conj eq_refl (conj eq_refl (conj eq_refl (conj eq_refl eq_refl))))
              eq_refl) as [Hcreate _].
  destruct (Hcreate eq_refl eq_refl eq_refl) as (k & _ & Hfires & _).
  exists k. destruct (Hfires eq_refl) as [Hone _]. exact Hone.
Defined.

(** C1 as stated fails on the threshold text: a transaction of 12000 gets
    one alert, whose reason shows [12000] but nowhere [10000].  It also
    fails on a create under an identifier that an alert already references:
    the transaction of 500 created after the stray update has a high-amount
    alert, of 20000. *)
Lemma high_amount_reason_lacks_10000 :
  (map fa_reason (alerts_for "TXN001" scenario_a) =
     ["High amount transaction: ₹12000.0 exceeds ₹10,000 limit"%string] /\
   map status (transactions scenario_a) = [FLAGGED] /\
   forallb (fun a => contains "12000" (fa_reason a))
           (alerts_for "TXN001" scenario_a) = true /\
   existsb (fun a => contains "10000" (fa_reason a))
           (alerts_for "TXN001" scenario_a) = false) /\
  (map amount (transactions (snd create_after_stray_update)) = [Finite 500] /\
   map (fun a => (fa_amount a, is_high_amount a))
       (alerts_for "TXN404" (snd create_after_stray_update)) =
     [(Finite 20000, true)]).
Proof. repeat split. Qed.

(** ** The velocity rule *)

Lemma in_window_iff uid t r :
  in_window uid t r = true <->
  user_id r = uid /\ t - 300 <= txn_time r /\ txn_time r <= t.
Proof.
  unfold in_window. rewrite !andb_true_iff, String.eqb_eq, !Z.leb_le. tauto.
Qed.







(** The sample data of [db_init.py]: the second transaction is flagged for
    its amount, the last two for being the sixth of their user within five
    minutes. *)
Example sample_data_statuses :
  map (fun r => (transaction_id r, status r))
      (transactions (insert_sample_data whole_real_text true 0 empty_db)) =
  [("TXN001", OK); ("TXN002", FLAGGED); ("TXN003", OK); ("TXN004", OK);
   ("TXN005", OK); ("TXN006", OK); ("TXN007", FLAGGED); ("TXN008", FLAGGED)]%string
  /\
  map fa_reason (fraud_alerts (insert_sample_data whole_real_text true 0 empty_db)) =
  ["High amount transaction: ₹12000.0 exceeds ₹10,000 limit";
   "Rapid transactions detected: 6 transactions within 5 minutes";
   "Rapid transactions detected: 6 transactions within 5 minutes"]%string.
Proof. split; vm_compute; reflexivity. Qed.

(** ** Create on an identifier already stored *)

Lemma existsb_true_filter {A} (p : A -> bool) (l : list A) :
  existsb p l = true -> exists x xs, filter p l = x :: xs.
Proof.
  induction l as [|y l IH]; simpl; [discriminate|].
  destruct (p y); simpl; [eauto|exact IH].
Qed.

Lemma add_transaction_duplicate_store sql_real_text rapid_first f env db :
  stored (form_transaction_id f) db = true ->
  snd (add_transaction sql_real_text rapid_first POST f env db) = db.
Proof.
  intro Hdup. unfold add_transaction.
  destruct (negb _); [reflexivity|].
  destruct (float (form_amount f)) as [amt|]; [|reflexivity].
  destruct (float_le amt 0); [reflexivity|].
  destruct (existsb_true_filter _ _ Hdup) as (x & xs & E).
  unfold add_body, select_transaction_id. run_sql.
  each_fault env; rewrite ?E; simpl; each_fault env; reflexivity.
Qed.

(** C6.  A create whose [transaction_id] is already stored leaves both
    tables as they were, whatever else happens; with fields that pass
    validation and an engine that serves the lookup, the answer is the
    error [Transaction ID already exists!]. *)
Theorem duplicate_create_rejected
    (sql_real_text : Real -> string) (rapid_first : bool) (f : Form) (db : Database) :
  stored (form_transaction_id f) db = true ->
  (forall env, snd (add_transaction sql_real_text rapid_first POST f env db) = db) /\
  (forall env amt,
      served env ->
      filled (form_transaction_id f) = true ->
      passes_validation f amt ->
      fst (add_transaction sql_real_text rapid_first POST f env db) =
        ([TransactionIdAlreadyExists], render_template "add_transaction.html") /\
      category TransactionIdAlreadyExists = error).
Proof.
  intro Hdup. split.
  - intro env. apply add_transaction_duplicate_store, Hdup.
  - intros env amt Hf Hid (Hu & Hl & Hty & Ha & Hpos). split; [|reflexivity].
    unfold add_transaction. rewrite Hid, Hu, Hl, Hty, Ha. simpl.
    rewrite (Rle_bool_pos _ Hpos).
    destruct (existsb_true_filter _ _ Hdup) as (x & xs & E).
    unfold add_body, select_transaction_id. run_sql. serve Hf.
    rewrite E. reflexivity.
Qed.

Lemma duplicate_create_rejected_witness :
  add_transaction whole_real_text true POST (request "TXN001" "USER001" 700 900)
                  quiet one_ok
  = (([TransactionIdAlreadyExists], render_template "add_transaction.html"), one_ok).
Proof.
  destruct (duplicate_create_rejected whole_real_text true
              (request "TXN001" "USER001" 700 900) one_ok eq_refl)
    as [Hstore Hanswer].
  destruct (Hanswer quiet (Finite 700) (fun _ => eq_refl) eq_refl
              (conj eq_refl (conj eq_refl (conj eq_refl (conj eq_refl eq_refl)))))
    as [Hfst _].
  rewrite (surjective_pairing (add_transaction _ _ _ _ _ _)).
  rewrite Hfst, (Hstore quiet). reflexivity.
Defined.

(** ** Delete *)

Lemma In_insert_desc x y l : In y (insert_desc x l) <-> y = x \/ In y l.
Proof.
  induction l as [|z l IH]; simpl.
  - split; intros [H|H]; auto.
  - destruct (fa_flagged_at (s_alert z) <? fa_flagged_at (s_alert x)); simpl.
    + split; intros [H|H]; auto.
    + rewrite IH. split; intros [H|[H|H]]; auto.
Qed.

Lemma In_order_by y l : In y (order_by_flagged_at_desc l) <-> In y l.
Proof.
  induction l as [|x l IH]; simpl; [tauto|].
  rewrite In_insert_desc, IH. split; intros [H|H]; auto.
Qed.

Lemma In_join_alert rows a s : In s (join_alert rows a) -> s_alert s = a.
Proof.
  unfold join_alert. destruct (filter _ rows) as [|r ms].
  - intros [H|[]]. subst s. reflexivity.
  - intro H. apply in_map_iff in H. destruct H as (r' & H & _). subst s.
    reflexivity.
Qed.

Lemma In_vw_suspicious db s :
  In s (vw_suspicious db) -> In (s_alert s) (fraud_alerts db).
Proof.
  unfold vw_suspicious. rewrite In_order_by, in_flat_map.
  intros (a & Ha & Hs). apply In_join_alert in Hs. subst a. exact Ha.
Qed.

Lemma alerts_for_nil_iff tid db :
  alerts_for tid db = [] <->
  forall a, In a (fraud_alerts db) -> fa_transaction_id a <> tid.
Proof.
  unfold alerts_for. split.
  - intros H a Ha E.
    assert (In a (filter (alert_of tid) (fraud_alerts db))) as Hin.
    { apply filter_In. split; [exact Ha|]. unfold alert_of.
      apply String.eqb_eq, E. }
    rewrite H in Hin. exact Hin.
  - intro H. induction (fraud_alerts db) as [|a l IH]; simpl; [reflexivity|].
    unfold alert_of at 1.
    destruct (fa_transaction_id a =? tid)%string eqn:E.
    + apply String.eqb_eq in E. exfalso. apply (H a); simpl; auto.
    + apply IH. intros b Hb. apply H. simpl. auto.
Qed.

Lemma listing_rows env db fl alerts s :
  fst (fraud_alerts_page env db) = (fl, render_alerts "fraud_alerts.html" alerts) ->
  In s alerts -> In (s_alert s) (fraud_alerts db).
Proof.
  unfold fraud_alerts_page, select_suspicious. run_sql.
  each_fault env; intros E Hs; inversion E; subst; simpl in Hs; try contradiction;
    rewrite In_order_by in Hs; apply In_vw_suspicious, Hs.
Qed.

(** C7, as amended.  A delete that the engine serves answers with
    success, whether or not the identifier is stored.  Afterwards no alert
    references the identifier, in the table or in the alert listing, and no
    row carries it; the other rows and the alerts of every other
    transaction are kept.  For an identifier that is not stored the
    transactions are unchanged and the alerts that referenced it, if any,
    are removed: the delete is a no-op when there were none. *)
Theorem delete_cascades (tid : string) (env : Env) (db : Database) :
  served env ->
  let db' := snd (delete_transaction tid env db) in
  fst (delete_transaction tid env db) =
    ([TransactionDeletedSuccessfully], redirect "view_transactions") /\
  category TransactionDeletedSuccessfully = success /\
  alerts_for tid db' = [] /\
  (forall env' fl alerts s,
      fst (fraud_alerts_page env' db') = (fl, render_alerts "fraud_alerts.html" alerts) ->
      In s alerts -> fa_transaction_id (s_alert s) <> tid) /\
  stored tid db' = false /\
  (forall r, In r (transactions db') <->
             In r (transactions db) /\ transaction_id r <> tid) /\
  (forall other, other <> tid -> alerts_for other db' = alerts_for other db) /\
  (stored tid db = false ->
   transactions db' = transactions db /\
   (alerts_for tid db = [] -> db' = db)).
Proof.
  intros Hf db'. subst db'. rewrite delete_transaction_success by exact Hf.
  cbn [fst snd].
  assert (Hnone : alerts_for tid (remove_rows tid (clear_alerts tid db)) = []).
  { unfold alerts_for. simpl. apply filter_cleared. }
  split; [reflexivity|]. split; [reflexivity|]. split; [exact Hnone|].
  split; [|split; [|split; [|split]]].
  - intros env' fl alerts s E Hs. apply listing_rows with (s := s) in E; auto.
    revert E. apply alerts_for_nil_iff, Hnone.
  - unfold stored. simpl. apply filter_nil_existsb, filter_cleared.
  - intro r. simpl. rewrite filter_In. unfold has_tid.
    rewrite negb_true_iff, String.eqb_neq. tauto.
  - intros other Hne. unfold alerts_for. simpl. apply alert_of_other, Hne.
  - intro Hmiss. unfold stored in Hmiss. split.
    + simpl. apply filter_none_id, Hmiss.
    + intro Hno. unfold remove_rows, clear_alerts. simpl.
      rewrite (filter_none_id _ _ Hmiss).
      rewrite (filter_none_id (alert_of tid)).
      * destruct db; reflexivity.
      * apply filter_nil_existsb, Hno.
Qed.

Lemma delete_cascades_witness :
  delete_transaction "TXN001" quiet one_flagged
  = (([TransactionDeletedSuccessfully], redirect "view_transactions"),
     mkDatabase [] [] 1 1).
Proof.
  destruct (delete_cascades "TXN001" quiet one_flagged (fun _ => eq_refl))
    as [Hfst _].
  rewrite (surjective_pairing (delete_transaction _ _ _)), Hfst.
  reflexivity.
Defined.

(** C7 as stated fails on an identifier that is not stored while an alert
    references it, as after the stray update: the delete answers with
    success and is no no-op, it takes that alert away. *)
Lemma delete_of_missing_id_takes_alerts :
  stored "TXN404" after_stray_update = false /\
  fraud_alerts after_stray_update =
    [high_alert 1 "TXN404" "USER001" 20000 "20000.0" 2000] /\
  fst (delete_transaction "TXN404" quiet after_stray_update) =
    ([TransactionDeletedSuccessfully], redirect "view_transactions") /\
  fraud_alerts (snd (delete_transaction "TXN404" quiet after_stray_update)) = [] /\
  snd (delete_transaction "TXN404" quiet after_stray_update) <> after_stray_update.
Proof. repeat split. intro H. discriminate H. Qed.

(** ** Update to values that breach no rule *)

(** C9.  After an update of a stored transaction to an amount of at most
    10000, with at most 5 rows of the submitted user in the window of the
    submitted instant, no alert references the transaction and its row,
    which holds the submitted values, has status OK. *)
Theorem update_clears_alerts
    (py_float_text : Real -> string) (tid : string) (f : Form) (env : Env)
    (db : Database) (amt : Real) (t : Z) :
  served env ->
  passes_validation f amt ->
  txn_type_ok (form_txn_type f) = true ->
  form_txn_time f = Some t ->
  stored tid db = true ->
  let db' := snd (update_transaction py_float_text POST tid f env db) in
  ~ exceeds amt 10000 ->
  (count_window (form_user_id f) t (transactions db') <= 5)%nat ->
  alerts_for tid db' = [] /\
  stored tid db' = true /\
  (forall r, In r (transactions db') -> transaction_id r = tid ->
             status r = OK /\ amount r = amt /\ user_id r = form_user_id f /\
             txn_time r = t).
Proof.
  intros Hf Hv Hty Ht Hst db'.
  assert (E : db' = reevaluated py_float_text (now_utc env) tid (form_user_id f)
                      amt (form_location f) t (form_txn_type f) db).
  { subst db'. rewrite update_transaction_success with (amt := amt) (t := t); auto. }
  rewrite E. clear E db'. rewrite reevaluated_count. intros Hamt Hcnt.
  apply Rgtb_not_exceeds in Hamt.
  assert (Hn : (5 <? count_rewritten tid (form_user_id f) amt (form_location f) t
                       (form_txn_type f) db)%nat = false).
  { apply Nat.ltb_nlt. lia. }
  split; [|split].
  - rewrite alerts_for_reevaluated. apply produced_nil; assumption.
  - rewrite reevaluated_stored. exact Hst.
  - intros r Hin Hr. apply reevaluated_row_status in Hin; auto.
    destruct Hin as (Hu & Ha & _ & Htime & _ & Hs).
    rewrite Hs, derived_status_quiet by assumption. auto.
Qed.

Lemma update_clears_alerts_witness :
  alerts_for "TXN001"
    (snd (update_transaction whole_real_text POST "TXN001"
            (request "" "USER001" 500 600) quiet one_flagged)) = [] /\
  transactions
    (snd (update_transaction whole_real_text POST "TXN001"
            (request "" "USER001" 500 600) quiet one_flagged))
  = [row 1 "TXN001" "USER001" 500 600 OK].
Proof.
  split; [|reflexivity].
  refine (proj1 (update_clears_alerts whole_real_text "TXN001"
                   (request "" "USER001" 500 600) quiet one_flagged 500 600
                   (fun _ => eq_refl)
                   (conj eq_refl (conj eq_refl (conj eq_refl (conj eq_refl eq_refl))))
                   eq_refl eq_refl eq_refl _ _)).
  - intro H. discriminate H.
  - apply Nat.leb_le. reflexivity.
Defined.

(** ** Update of an identifier that is not stored *)

Lemma count_rewritten_missing tid uid amt loc t ty db :
  stored tid db = false ->
  count_rewritten tid uid amt loc t ty db = count_window uid t (transactions db).
Proof.
  intro Hmiss. unfold count_rewritten, rewrite_rows. simpl.
  rewrite map_absent by exact Hmiss. reflexivity.
Qed.

Lemma reevaluated_transactions_missing py_float_text now tid uid amt loc t ty db :
  stored tid db = false ->
  transactions (reevaluated py_float_text now tid uid amt loc t ty db) =
  transactions db.
Proof.
  intro Hmiss. rewrite reevaluated_transactions. apply map_absent, Hmiss.
Qed.

(** C10, as amended.  An update of an identifier that is not stored, with
    fields that pass validation and a number as amount, answers with
    success and leaves the transactions table as it was.  The alerts that
    reference the identifier are then those the two rules write from the
    submitted values, the window being counted over the stored rows: at
    least one when the amount exceeds 10000 or that count exceeds 5, and it
    references no stored row.  With ['nan'] as amount, which passes the
    checks of the handler too, the update goes through when the count is at
    most 5, writing no alert and removing those that referenced the
    identifier; when the count exceeds 5 the alert cannot be stored and the
    update answers with a database error, the file being left as it was. *)
Theorem update_of_missing_id
    (py_float_text : Real -> string) (tid : string) (f : Form) (env : Env)
    (db : Database) (t : Z) :
  served env ->
  form_txn_time f = Some t ->
  stored tid db = false ->
  let uid := form_user_id f in
  let n := count_window uid t (transactions db) in
  let out := update_transaction py_float_text POST tid f env db in
  (forall amt, passes_validation f amt ->
     fst out = ([TransactionUpdatedSuccessfully], redirect "view_transactions") /\
     transactions (snd out) = transactions db /\
     alerts_for tid (snd out) =
       produced (py_float_text amt) (now_utc env) (seq_fraud_alerts db) tid uid amt n /\
     (exceeds amt 10000 \/ (5 < n)%nat ->
      exists a, In a (fraud_alerts (snd out)) /\
                fa_transaction_id a = tid /\
                seq_fraud_alerts db < fa_id a /\
                stored (fa_transaction_id a) (snd out) = false))
  /\
  (filled uid = true -> filled (form_location f) = true ->
   filled (form_txn_type f) = true -> form_amount f = NotANumber ->
     ((n <= 5)%nat ->
      fst out = ([TransactionUpdatedSuccessfully], redirect "view_transactions") /\
      snd out = clear_alerts tid db) /\
     ((5 < n)%nat ->
      fst out = ([DatabaseError IntegrityError; DatabaseError ProgrammingError],
                 redirect "view_transactions") /\
      snd out = db)).
Proof.
  intros Hf Ht Hmiss uid n out. split.
  - intros amt Hv. subst out.
    rewrite update_transaction_success with (amt := amt) (t := t); auto.
    2: { intro H. congruence. }
    cbn [fst snd].
    assert (Hal : alerts_for tid
                    (reevaluated py_float_text (now_utc env) tid uid amt
                       (form_location f) t (form_txn_type f) db) =
                  produced (py_float_text amt) (now_utc env) (seq_fraud_alerts db)
                           tid uid amt n).
    { rewrite alerts_for_reevaluated, count_rewritten_missing by exact Hmiss.
      reflexivity. }
    split; [reflexivity|]. split; [|split; [exact Hal|]].
    + apply reevaluated_transactions_missing, Hmiss.
    + intro Hfire.
      assert (exists a, In a (produced (py_float_text amt) (now_utc env)
                                (seq_fraud_alerts db) tid uid amt n) /\
                        fa_transaction_id a = tid /\ seq_fraud_alerts db < fa_id a)
        as (a & Ha & Hid & Hk).
      { unfold produced. destruct Hfire as [H | H].
        - apply Rgtb_exceeds in H. rewrite H. eexists. split; [left; reflexivity|].
          simpl. split; [reflexivity | lia].
        - apply Nat.ltb_lt in H. rewrite H. eexists. split.
          + apply in_or_app. right. left. reflexivity.
          + simpl. split; [reflexivity|]. destruct (Rgtb amt 10000); lia. }
      exists a. rewrite <- Hal in Ha. unfold alerts_for in Ha.
      apply filter_In in Ha. destruct Ha as [Ha _].
      repeat split; auto.
      rewrite Hid, reevaluated_stored. exact Hmiss.
  - intros Hu Hl Hty Ha. subst out uid.
    unfold update_transaction, get_connection.
    rewrite Hf, Ht, Hu, Hl, Hty, Ha. simpl.
    unfold update_body, update_fields, edit_form. run_sql. serve Hf.
    unfold stored in Hmiss. rewrite Hmiss. simpl. serve Hf.
    fold n. split; intro Hn.
    + apply Nat.leb_le in Hn. rewrite Nat.leb_antisym in Hn.
      apply negb_true_iff in Hn. rewrite Hn. simpl. serve Hf.
      split; reflexivity.
    + apply Nat.ltb_lt in Hn. rewrite Hn. simpl. serve Hf.
      split; reflexivity.
Qed.

Lemma update_of_missing_id_witness :
  update_transaction whole_real_text POST "TXN404"
    (request "" "USER001" 20000 600) quiet empty_db
  = (([TransactionUpdatedSuccessfully], redirect "view_transactions"),
     mkDatabase [] [high_alert 1 "TXN404" "USER001" 20000 "20000.0" 2000] 0 1).
Proof.
  destruct (update_of_missing_id whole_real_text "TXN404"
              (request "" "USER001" 20000 600) quiet empty_db 600
              (fun _ => eq_refl) eq_refl eq_refl) as [Hnumber _].
  destruct (Hnumber (Finite 20000)
              (conj eq_refl (conj eq_refl (conj eq_refl (conj eq_refl eq_refl)))))
    as [Hfst _].
  rewrite (surjective_pairing (update_transaction _ _ _ _ _ _)), Hfst.
  reflexivity.
Defined.

(** C10 as stated fails on ['nan']: the amount passes the checks of the
    handler (on an empty store the update goes through), and for a user
    with six transactions in the window the update of a missing identifier
    answers with a database error and writes no alert. *)
Lemma update_of_missing_id_with_nan :
  update_transaction whole_real_text POST "TXN404" nan_request quiet empty_db =
    (([TransactionUpdatedSuccessfully], redirect "view_transactions"), empty_db) /\
  stored "TXN404" after_six = false /\
  count_window "USER001" 240 (transactions after_six) = 6%nat /\
  update_transaction whole_real_text POST "TXN404" nan_request quiet after_six =
    (([DatabaseError IntegrityError; DatabaseError ProgrammingError],
      redirect "view_transactions"), after_six) /\
  alerts_for "TXN404" after_six = [].
Proof. repeat split. Qed.

(** ** Re-evaluation *)


Lemma produced_cleared shown now seq tid uid amt n :
  filter (fun a => negb (alert_of tid a)) (produced shown now seq tid uid amt n) = [].
Proof.
  unfold produced. destruct (Rgtb amt 10000), (5 <? n)%nat; simpl;
    unfold alert_of; simpl; rewrite ?String.eqb_refl; reflexivity.
Qed.

Lemma filter_idem {A} (p : A -> bool) (l : list A) :
  filter p (filter p l) = filter p l.
Proof.
  induction l as [|x l IH]; simpl; [reflexivity|].
  destruct (p x) eqn:E; simpl; rewrite ?E, IH; reflexivity.
Qed.






Lemma triggered_cleared rapid_first shown now seq tid uid amt n :
  filter (fun a => negb (alert_of tid a))
         (triggered rapid_first shown now seq tid uid amt n) = [].
Proof.
  unfold triggered. destruct rapid_first; [|apply produced_cleared].
  destruct (Rgtb amt 10000), (5 <? n)%nat; simpl;
    unfold alert_of; simpl; rewrite ?String.eqb_refl; reflexivity.
Qed.






(** ** Status and alerts *)

Lemma not_stored_row tid db r :
  stored tid db = false -> In r (transactions db) -> transaction_id r <> tid.
Proof.
  intros Hmiss Hin E. unfold stored in Hmiss.
  assert (existsb (has_tid tid) (transactions db) = true) as Hex.
  { apply existsb_exists. exists r. split; [exact Hin|].
    unfold has_tid. apply String.eqb_eq, E. }
  congruence.
Qed.

Lemma empty_db_consistent : status_consistent empty_db /\ no_dangling empty_db.
Proof. split; intros x []. Qed.

(** An update keeps every status in step with the alerts, stored
    identifier or not. *)
Lemma reevaluated_consistent py_float_text now tid uid amt loc t ty db :
  status_consistent db ->
  status_consistent (reevaluated py_float_text now tid uid amt loc t ty db).
Proof.
  intros Hc r' Hin. rewrite reevaluated_transactions in Hin.
  apply in_map_iff in Hin. destruct Hin as (r & Hr & Hin).
  destruct (has_tid tid r) eqn:E.
  - unfold has_tid in E. apply String.eqb_eq in E. subst r'. simpl.
    rewrite E, alerts_for_reevaluated. symmetry. apply produced_flags.
  - unfold has_tid in E. apply String.eqb_neq in E. subst r'.
    rewrite alerts_for_reevaluated_other by exact E. apply Hc, Hin.
Qed.

(** So does a delete. *)
Lemma deleted_consistent tid db :
  status_consistent db ->
  status_consistent (remove_rows tid (clear_alerts tid db)).
Proof.
  intros Hc r Hin. simpl in Hin. apply filter_In in Hin.
  destruct Hin as [Hin E]. unfold has_tid in E.
  apply negb_true_iff, String.eqb_neq in E.
  unfold alerts_for. simpl. rewrite alert_of_other by exact E.
  apply Hc, Hin.
Qed.

(** So does a create, as long as no alert is waiting for the new
    identifier. *)
Lemma created_consistent sql_real_text rapid_first now tid uid amt loc t ty db :
  stored tid db = false ->
  alerts_for tid db = [] ->
  status_consistent db ->
  status_consistent (created sql_real_text rapid_first now tid uid amt loc t ty db).
Proof.
  intros Hnew Hnone Hc r Hin.
  rewrite created_transactions in Hin by exact Hnew.
  apply in_app_or in Hin. destruct Hin as [Hold | [Hr | []]].
  - rewrite alerts_for_created_other
      by (apply not_stored_row with (db := db); assumption).
    apply Hc, Hold.
  - subst r. simpl. rewrite alerts_for_created, Hnone. simpl.
    symmetry. apply triggered_flags.
Qed.

(** Alerts stay attached to stored rows through a create, a delete and an
    update of a stored identifier. *)
Lemma created_no_dangling sql_real_text rapid_first now tid uid amt loc t ty db :
  stored tid db = false ->
  no_dangling db ->
  no_dangling (created sql_real_text rapid_first now tid uid amt loc t ty db).
Proof.
  intros Hnew Hd a Hin. rewrite created_fraud_alerts in Hin.
  unfold stored. rewrite created_transactions by exact Hnew.
  rewrite existsb_app. apply in_app_or in Hin. destruct Hin as [Hold | Hp].
  - apply Hd in Hold. unfold stored in Hold. rewrite Hold. reflexivity.
  - assert (fa_transaction_id a = tid) as E.
    { rewrite <- triggered_own in Hp. apply filter_In in Hp.
      destruct Hp as [_ Hp]. apply String.eqb_eq, Hp. }
    rewrite E. simpl. unfold has_tid at 2. simpl. rewrite String.eqb_refl.
    simpl. apply orb_true_r.
Qed.

Lemma reevaluated_no_dangling py_float_text now tid uid amt loc t ty db :
  stored tid db = true ->
  no_dangling db ->
  no_dangling (reevaluated py_float_text now tid uid amt loc t ty db).
Proof.
  intros Hst Hd a Hin. rewrite reevaluated_stored.
  rewrite reevaluated_fraud_alerts in Hin.
  apply in_app_or in Hin. destruct Hin as [Hold | Hp].
  - apply filter_In in Hold. apply Hd, Hold.
  - rewrite <- produced_own in Hp. apply filter_In in Hp.
    destruct Hp as [_ Hp]. apply String.eqb_eq in Hp. rewrite Hp. exact Hst.
Qed.

Lemma deleted_no_dangling tid db :
  no_dangling db ->
  no_dangling (remove_rows tid (clear_alerts tid db)).
Proof.
  intros Hd a Hin. simpl in Hin. apply filter_In in Hin.
  destruct Hin as [Hin E]. apply Hd in Hin.
  unfold alert_of in E. apply negb_true_iff in E.
  unfold stored in *. simpl.
  apply existsb_exists in Hin. destruct Hin as (r & Hr & Hid).
  apply existsb_exists. exists r. split; [|exact Hid].
  apply filter_In. split; [exact Hr|].
  unfold has_tid in *. apply String.eqb_eq in Hid.
  rewrite Hid, E. reflexivity.
Qed.

Lemma no_dangling_fresh tid db :
  no_dangling db -> stored tid db = false -> alerts_for tid db = [].
Proof.
  intros Hd Hmiss. apply alerts_for_nil_iff. intros a Ha E.
  apply Hd in Ha. rewrite E in Ha. congruence.
Qed.

(** ** When the engine fails *)

Ltac turned_down :=
  right; split; [reflexivity|];
  first [ left; eexists; split; reflexivity
        | right; left; split; [reflexivity | first [assumption | reflexivity]]
        | right; right; eexists; eexists;
          split; [reflexivity | split; [reflexivity | eassumption]] ].

(** Every outcome of a create: success, with the row and its alerts
    committed together; or the file as it was, with one error message on
    the form page, or with an exception leaving the handler because the
    connect or the rollback failed. *)
Lemma add_transaction_any_env sql_real_text rapid_first f env db :
  let out := add_transaction sql_real_text rapid_first POST f env db in
  (fst out = ([TransactionAddedSuccessfully], redirect "view_transactions") /\
   stored (form_transaction_id f) db = false /\
   txn_type_ok (form_txn_type f) = true /\
   filled (form_transaction_id f) = true /\
   exists amt,
     passes_validation f amt /\
     snd out = created sql_real_text rapid_first (now_utc env)
                 (form_transaction_id f) (form_user_id f) amt (form_location f)
                 (resolved_time f env) (form_txn_type f) db)
  \/
  (snd out = db /\
   ((exists fl,
       fst out = ([fl], render_template "add_transaction.html") /\
       category fl = error)
    \/
    (fst out = ([], internal_server_error) /\ faults env 0%nat = true)
    \/
    (exists fl k,
       fst out = ([fl], internal_server_error) /\
       category fl = error /\ faults env k = true))).
Proof.
  intro out. subst out. unfold add_transaction, stored.
  destruct (filled (form_transaction_id f)) eqn:Hid; [|turned_down].
  destruct (filled (form_user_id f)) eqn:Hu; [|turned_down].
  destruct (filled (form_location f)) eqn:Hl;
    [|simpl; rewrite ?andb_false_r; turned_down].
  destruct (filled (form_txn_type f)) eqn:Hty;
    [|simpl; rewrite ?andb_false_r; turned_down].
  destruct (form_amount f) as [| |amt|] eqn:Ha; simpl;
    [turned_down | turned_down | |].
  - destruct (Rle_bool amt 0) eqn:Hpos; [turned_down|].
    assert (Hv : passes_validation f amt).
    { repeat split; auto. apply Rle_bool_not_pos, Hpos. }
    unfold add_body, select_transaction_id, insert_transaction, created. run_sql.
    walk env db;
      first [ turned_down
            | left; (split; [reflexivity|]); (split; [reflexivity|]);
              (split; [reflexivity|]); (split; [reflexivity|]);
              exists amt; (split; [exact Hv | reflexivity]) ].
  - unfold add_body, select_transaction_id, insert_transaction. run_sql.
    walk env db; turned_down.
Qed.

Lemma delete_transaction_any_env tid env db :
  let out := delete_transaction tid env db in
  (fst out = ([TransactionDeletedSuccessfully], redirect "view_transactions") /\
   snd out = remove_rows tid (clear_alerts tid db))
  \/
  (snd out = db /\
   (fst out = ([DatabaseError OperationalError], redirect "view_transactions")
    \/
    (fst out = ([], internal_server_error) /\ faults env 0%nat = true)
    \/
    (exists k,
       fst out = ([DatabaseError OperationalError], internal_server_error) /\
       faults env k = true))).
Proof.
  intro out. subst out. unfold delete_transaction, delete_body. run_sql.
  each_fault env;
    first [ left; split; reflexivity
          | right; split; [reflexivity|];
            first [ left; reflexivity
                  | right; left; split; [reflexivity | reflexivity]
                  | right; right; eexists; split; [reflexivity | eassumption] ] ].
Qed.

(** Create and delete commit once, at the end: whatever calls fail, the
    file holds either the store as it was or the whole effect. *)
Lemma add_transaction_all_or_nothing sql_real_text rapid_first f env db :
  snd (add_transaction sql_real_text rapid_first POST f env db) = db \/
  stored (form_transaction_id f) db = false /\
  exists amt,
    snd (add_transaction sql_real_text rapid_first POST f env db) =
      created sql_real_text rapid_first (now_utc env) (form_transaction_id f)
              (form_user_id f) amt (form_location f) (resolved_time f env)
              (form_txn_type f) db.
Proof.
  destruct (add_transaction_any_env sql_real_text rapid_first f env db)
    as [(_ & Hnew & _ & _ & amt & _ & E) | (E & _)]; [right | left; exact E].
  split; [exact Hnew | exists amt; exact E].
Qed.

Lemma delete_transaction_all_or_nothing tid env db :
  snd (delete_transaction tid env db) = db \/
  snd (delete_transaction tid env db) = remove_rows tid (clear_alerts tid db).
Proof.
  destruct (delete_transaction_any_env tid env db) as [[_ E] | [E _]]; auto.
Qed.

(** Every outcome of an update with valid fields and a number as amount:
    the connect fails; or the update is carried through; or an exception
    stops it before or after its first commit, and is reported by a
    message, followed by the message of the edit form read on the closed
    connection, or leaves the handler when the rollback fails too. *)
Lemma update_transaction_any_env py_float_text tid f env db amt t :
  passes_validation f amt ->
  form_txn_time f = Some t ->
  let out := update_transaction py_float_text POST tid f env db in
  (fst out = ([], internal_server_error) /\ snd out = db /\
   faults env 0%nat = true)
  \/
  (fst out = ([TransactionUpdatedSuccessfully], redirect "view_transactions") /\
   (stored tid db = true -> txn_type_ok (form_txn_type f) = true) /\
   snd out = reevaluated py_float_text (now_utc env) tid (form_user_id f) amt
               (form_location f) t (form_txn_type f) db)
  \/
  (exists e,
     (fst out = ([DatabaseError e; DatabaseError ProgrammingError],
                 redirect "view_transactions")
      \/
      (fst out = ([DatabaseError e], internal_server_error) /\
       exists k, faults env k = true)) /\
     (snd out = db
      \/
      ((stored tid db = true -> txn_type_ok (form_txn_type f) = true) /\
       (exists k, faults env k = true) /\
       snd out = rewrite_rows tid (form_user_id f) amt (form_location f) t
                   (form_txn_type f) db))).
Proof.
  intros (Hu & Hl & Hty & Ha & Hpos) Ht out. subst out.
  unfold update_transaction.
  rewrite Ht, Hu, Hl, Hty, Ha. simpl. rewrite (Rle_bool_pos _ Hpos).
  unfold update_body, update_fields, edit_form, reevaluated, high_step,
    rapid_step, stored. run_sql.
  walk env db; try congruence;
    first
      [ left; split; [reflexivity | split; reflexivity]
      | right; left; split;
        [ reflexivity
        | split; [intros; first [reflexivity | discriminate] | reflexivity] ]
      | right; right; eexists; split;
        [ first [ left; reflexivity
                | right; split; [reflexivity | eexists; eassumption] ]
        | first [ left; reflexivity
                | right; split;
                  [ intros; first [reflexivity | discriminate]
                  | split; [eexists; eassumption | reflexivity] ] ] ] ].
Qed.

(** What an update can leave in the file, whatever the form. *)
Lemma update_transaction_store py_float_text tid f env db :
  let out := update_transaction py_float_text POST tid f env db in
  snd out = db
  \/
  (exists amt t,
     passes_validation f amt /\ form_txn_time f = Some t /\
     (stored tid db = true -> txn_type_ok (form_txn_type f) = true) /\
     (snd out = reevaluated py_float_text (now_utc env) tid (form_user_id f) amt
                  (form_location f) t (form_txn_type f) db
      \/
      ((exists k, faults env k = true) /\
       snd out = rewrite_rows tid (form_user_id f) amt (form_location f) t
                   (form_txn_type f) db)))
  \/
  (stored tid db = false /\ form_amount f = NotANumber /\
   snd out = clear_alerts tid db).
Proof.
  intro out. subst out.
  destruct (form_txn_time f) as [t|] eqn:Ht.
  2: { left. unfold update_transaction. rewrite Ht. run_sql.
       destruct (faults env 0); reflexivity. }
  destruct (filled (form_user_id f) && amount_filled (form_amount f)
            && filled (form_location f) && filled (form_txn_type f)) eqn:Hall.
  2: { left. unfold update_transaction. rewrite Ht, Hall. run_sql.
       destruct (faults env 0); reflexivity. }
  apply andb_true_iff in Hall. destruct Hall as [Hall Hty].
  apply andb_true_iff in Hall. destruct Hall as [Hall Hl].
  apply andb_true_iff in Hall. destruct Hall as [Hu _].
  destruct (form_amount f) as [| |amt|] eqn:Ha.
  1, 2: left; unfold update_transaction; rewrite Ht, Hu, Hl, Hty, Ha; run_sql;
        destruct (faults env 0); reflexivity.
  - destruct (Rle_bool amt 0) eqn:Hpos.
    { left. unfold update_transaction. rewrite Ht, Hu, Hl, Hty, Ha. simpl.
      rewrite Hpos. run_sql. destruct (faults env 0); reflexivity. }
    assert (Hv : passes_validation f amt).
    { repeat split; auto. apply Rle_bool_not_pos, Hpos. }
    destruct (update_transaction_any_env py_float_text tid f env db amt t Hv Ht)
      as [(_ & E & _) | [(_ & Hok & E) | (e & _ & [E | (Hok & Hk & E)])]].
    + left. exact E.
    + right. left. exists amt, t.
      split; [exact Hv|]. split; [reflexivity|]. split; [exact Hok|].
      left. exact E.
    + left. exact E.
    + right. left. exists amt, t.
      split; [exact Hv|]. split; [reflexivity|]. split; [exact Hok|].
      right. split; [exact Hk | exact E].
  - unfold update_transaction. rewrite Ht, Hu, Hl, Hty, Ha. simpl.
    unfold update_body, update_fields, edit_form, stored. run_sql.
    walk env db;
      first [ left; reflexivity
            | right; right; split; [reflexivity | split; reflexivity] ].
Qed.

(** An update that the engine serves changes nothing, re-evaluates the
    transaction, or, for an identifier that is not stored and ['nan'] as
    amount, removes the alerts that referenced the identifier. *)
Lemma update_transaction_served py_float_text tid f env db :
  served env ->
  snd (update_transaction py_float_text POST tid f env db) = db \/
  (exists amt t,
     snd (update_transaction py_float_text POST tid f env db) =
       reevaluated py_float_text (now_utc env) tid (form_user_id f) amt
                   (form_location f) t (form_txn_type f) db) \/
  (stored tid db = false /\
   snd (update_transaction py_float_text POST tid f env db) = clear_alerts tid db).
Proof.
  intro Hf.
  destruct (update_transaction_store py_float_text tid f env db)
    as [E | [(amt & t & _ & _ & _ & [E | ((k & Hk) & _)]) | (Hst & _ & E)]].
  - left. exact E.
  - right. left. exists amt, t. exact E.
  - rewrite Hf in Hk. discriminate Hk.
  - right. right. split; assumption.
Qed.

(** From a store that satisfies [store_invariant], every create and every
    delete, served or not, and every served update of a stored identifier
    lead to a store that satisfies it. *)
Lemma add_transaction_keeps_invariant sql_real_text rapid_first f env db :
  store_invariant db ->
  store_invariant (snd (add_transaction sql_real_text rapid_first POST f env db)).
Proof.
  intros [Hc Hd].
  destruct (add_transaction_all_or_nothing sql_real_text rapid_first f env db)
    as [E | (Hnew & amt & E)]; rewrite E; [split; assumption|].
  split.
  - apply created_consistent; auto. apply no_dangling_fresh; assumption.
  - apply created_no_dangling; assumption.
Qed.

Lemma delete_transaction_keeps_invariant tid env db :
  store_invariant db ->
  store_invariant (snd (delete_transaction tid env db)).
Proof.
  intros [Hc Hd].
  destruct (delete_transaction_all_or_nothing tid env db) as [E | E];
    rewrite E; [split; assumption|].
  split; [apply deleted_consistent | apply deleted_no_dangling]; assumption.
Qed.

Lemma update_transaction_keeps_invariant py_float_text tid f env db :
  served env ->
  stored tid db = true ->
  store_invariant db ->
  store_invariant (snd (update_transaction py_float_text POST tid f env db)).
Proof.
  intros Hf Hst [Hc Hd].
  destruct (update_transaction_served py_float_text tid f env db Hf)
    as [E | [(amt & t & E) | (Hmiss & _)]];
    [rewrite E; split; assumption | rewrite E | congruence].
  split; [apply reevaluated_consistent | apply reevaluated_no_dangling];
    assumption.
Qed.

(** The update commits right after its first statement: when the call
    after that commit fails, the file keeps the rewritten row, status
    [OK], with the old alerts. *)
Lemma update_transaction_fails_after_commit py_float_text tid f env db amt t :
  faults env 0%nat = false -> faults env 1%nat = false ->
  faults env 2%nat = false -> faults env 3%nat = true ->
  faults env 4%nat = false ->
  passes_validation f amt ->
  form_txn_time f = Some t ->
  (stored tid db = true -> txn_type_ok (form_txn_type f) = true) ->
  update_transaction py_float_text POST tid f env db =
    (([DatabaseError OperationalError; DatabaseError ProgrammingError],
      redirect "view_transactions"),
     rewrite_rows tid (form_user_id f) amt (form_location f) t (form_txn_type f) db).
Proof.
  intros H0 H1 H2 H3 H4 (Hu & Hl & Hty & Ha & Hpos) Ht Hok.
  unfold update_transaction, get_connection. rewrite H0, Ht, Hu, Hl, Hty, Ha. simpl.
  rewrite (Rle_bool_pos _ Hpos).
  unfold update_body, update_fields, edit_form. run_sql. rewrite H1. simpl.
  assert (G : existsb (has_tid tid) (transactions db)
              && negb (txn_type_ok (form_txn_type f)) = false).
  { unfold stored in Hok. destruct (existsb (has_tid tid) (transactions db)).
    - rewrite Hok; reflexivity.
    - reflexivity. }
  rewrite G. simpl. rewrite H2. simpl. rewrite H3. simpl. rewrite H4. simpl.
  reflexivity.
Qed.

(** C3 fails on the code.  The engine serves the connect, the [UPDATE],
    the commit that follows it and the [DELETE], then fails on the [INSERT]
    of the alert (its call number 4): the file keeps the new amount of
    20000 with status OK and no alert, not the row of 500 it held before. *)
Theorem update_commits_before_alerts :
  update_transaction whole_real_text POST "TXN001"
    (request "" "USER001" 20000 600) (failing 4) one_ok
  = (([DatabaseError OperationalError; DatabaseError ProgrammingError],
      redirect "view_transactions"),
     mkDatabase [row 1 "TXN001" "USER001" 20000 600 OK] [] 1 0).
Proof. reflexivity. Qed.

(** C5 fails on the code.  A [POST] for an identifier that is not stored
    answers with success and writes an alert, where the [GET] of the same
    route answers [Transaction not found!]. *)
Theorem update_post_skips_lookup :
  update_transaction whole_real_text POST "TXN404"
    (request "" "USER001" 20000 600) quiet empty_db
  = (([TransactionUpdatedSuccessfully], redirect "view_transactions"),
     mkDatabase [] [high_alert 1 "TXN404" "USER001" 20000 "20000.0" 2000] 0 1) /\
  update_transaction whole_real_text GET "TXN404"
    (request "" "USER001" 20000 600) quiet empty_db
  = (([TransactionNotFound], redirect "view_transactions"), empty_db).
Proof. split; reflexivity. Qed.

(** C4 fails on the code.  The alert left by an update of a missing
    identifier is found by the transaction later created under that
    identifier: the create goes through, the row has status OK and an
    alert references it. *)
Theorem status_drifts_from_alerts :
  fst create_after_stray_update =
    ([TransactionAddedSuccessfully], redirect "view_transactions") /\
  transactions (snd create_after_stray_update) =
    [row 1 "TXN404" "USER001" 500 600 OK] /\
  alerts_for "TXN404" (snd create_after_stray_update) =
    [high_alert 1 "TXN404" "USER001" 20000 "20000.0" 2000] /\
  ~ status_consistent (snd create_after_stray_update).
Proof.
  repeat split.
  intro Hc.
  destruct (Hc (row 1 "TXN404" "USER001" 500 600 OK) (or_introl eq_refl))
    as [_ Hflag].
  assert (status (row 1 "TXN404" "USER001" 500 600 OK) = FLAGGED) as Hbad.
  { apply Hflag. discriminate. }
  discriminate Hbad.
Qed.

(** * Further properties of the handlers *)

(** ** What each handler can leave in the file *)

(** X1.  Whatever the form and whatever calls the engine fails, a create
    either answers with success, the new row and the alerts of its triggers
    being committed together, or leaves the file as it was.  In the second
    case it answers with one error message on the form page, unless an
    exception leaves the handler: the connect failed, and nothing was
    flashed, or the rollback failed after the error message was flashed.
    Success is only given for an identifier that was not stored, and no
    exception leaves the handler when the engine serves every call. *)
Theorem create_is_all_or_nothing
    (sql_real_text : Real -> string) (rapid_first : bool) (f : Form) (env : Env)
    (db : Database) :
  let out := add_transaction sql_real_text rapid_first POST f env db in
  (fst (fst out) = [TransactionAddedSuccessfully] ->
   stored (form_transaction_id f) db = false /\
   stored (form_transaction_id f) (snd out) = true /\
   exists amt,
     form_amount f = Number amt /\
     snd out = created sql_real_text rapid_first (now_utc env)
                 (form_transaction_id f) (form_user_id f) amt (form_location f)
                 (resolved_time f env) (form_txn_type f) db) /\
  (fst (fst out) <> [TransactionAddedSuccessfully] ->
   snd out = db /\
   ((exists fl,
       fst out = ([fl], render_template "add_transaction.html") /\
       category fl = error)
    \/
    (fst out = ([], internal_server_error) /\ faults env 0%nat = true)
    \/
    (exists fl k,
       fst out = ([fl], internal_server_error) /\
       category fl = error /\ faults env k = true))) /\
  (served env -> snd (fst out) <> internal_server_error).
Proof.
  intro out.
  destruct (add_transaction_any_env sql_real_text rapid_first f env db)
    as [(Hfst & Hnew & _ & _ & amt & (_ & _ & _ & Ha & _) & Hsnd)
       | (Hsnd & Hfst)];
    fold out in Hfst, Hsnd.
  - split; [|split].
    + intros _. split; [exact Hnew|]. split.
      * rewrite Hsnd. apply created_stored, Hnew.
      * exists amt. split; assumption.
    + intro H. rewrite Hfst in H. exfalso. apply H. reflexivity.
    + intros _. rewrite Hfst. discriminate.
  - split; [|split].
    + intro H.
      destruct Hfst as [(fl & Hfst & Hcat) | [(Hfst & _) | (fl & k & Hfst & Hcat & _)]];
        rewrite Hfst in H; simpl in H; try discriminate H;
        assert (fl = TransactionAddedSuccessfully) by congruence; subst fl;
        discriminate Hcat.
    + intros _. split; [exact Hsnd | exact Hfst].
    + intros Hf.
      destruct Hfst as [(fl & Hfst & _) | [(_ & Hk) | (fl & k & _ & _ & Hk)]].
      * rewrite Hfst. discriminate.
      * rewrite Hf in Hk. discriminate Hk.
      * rewrite Hf in Hk. discriminate Hk.
Qed.

Lemma create_is_all_or_nothing_witness :
  snd (add_transaction whole_real_text true POST
         (request "TXN001" "USER001" 12000 600) (failing 3) empty_db) = empty_db.
Proof.
  destruct (create_is_all_or_nothing whole_real_text true
              (request "TXN001" "USER001" 12000 600)
              (failing 3) empty_db) as (_ & Hfail & _).
  destruct Hfail as [Hsame _]; [discriminate | exact Hsame].
Defined.

(** X2.  Whatever calls the engine fails, a delete either answers with
    success, the alerts of the identifier and its row being gone together,
    or leaves the file as it was.  In the second case it answers with a
    database error, unless an exception leaves the handler: the connect
    failed, and nothing was flashed, or the rollback failed after the error
    was flashed.  A second delete of the same identifier finds nothing
    left to remove, and a delete that the engine serves succeeds. *)
Theorem delete_is_all_or_nothing (tid : string) (env env' : Env) (db : Database) :
  let out := delete_transaction tid env db in
  ((fst out = ([TransactionDeletedSuccessfully], redirect "view_transactions") /\
    snd out = remove_rows tid (clear_alerts tid db) /\
    snd (delete_transaction tid env' (snd out)) = snd out)
   \/
   (snd out = db /\
    (fst out = ([DatabaseError OperationalError], redirect "view_transactions")
     \/
     (fst out = ([], internal_server_error) /\ faults env 0%nat = true)
     \/
     (exists k,
        fst out = ([DatabaseError OperationalError], internal_server_error) /\
        faults env k = true)))) /\
  (served env ->
   fst out = ([TransactionDeletedSuccessfully], redirect "view_transactions")).
Proof.
  intro out. split.
  - destruct (delete_transaction_any_env tid env db) as [[Hfst Hsnd] | H];
      fold out in Hfst, Hsnd || fold out in H; [left | right; exact H].
    split; [exact Hfst|]. split; [exact Hsnd|].
    rewrite Hsnd.
    destruct (delete_transaction_any_env tid env'
                (remove_rows tid (clear_alerts tid db))) as [[_ E] | [E _]];
      rewrite E; [|reflexivity].
    unfold remove_rows, clear_alerts. simpl. rewrite !filter_idem. reflexivity.
  - intro Hf. subst out. rewrite delete_transaction_success by exact Hf.
    reflexivity.
Qed.

Lemma delete_is_all_or_nothing_witness :
  fst (delete_transaction "TXN001" quiet one_flagged) =
    ([TransactionDeletedSuccessfully], redirect "view_transactions").
Proof.
  exact (proj2 (delete_is_all_or_nothing "TXN001" quiet quiet one_flagged)
               (fun _ => eq_refl)).
Defined.

(** X3.  An update with valid fields and a number as amount leaves one of
    three stores, whatever calls the engine fails: the store as it was, the
    store with the transaction re-evaluated, or the store holding the
    rewritten row with status OK beside the alerts it had before.  The
    second goes with the success message.  The others go with a database
    error, followed by the message of the edit form read on the closed
    connection, or with an exception leaving the handler: after a failed
    connect, nothing being flashed and the store being as it was, or after
    a failed rollback. *)
Theorem update_has_one_intermediate_state
    (py_float_text : Real -> string) (tid : string) (f : Form) (env : Env)
    (db : Database) (amt : Real) (t : Z) :
  passes_validation f amt ->
  form_txn_time f = Some t ->
  let out := update_transaction py_float_text POST tid f env db in
  (fst out = ([], internal_server_error) /\ snd out = db /\
   faults env 0%nat = true)
  \/
  (fst out = ([TransactionUpdatedSuccessfully], redirect "view_transactions") /\
   snd out = reevaluated py_float_text (now_utc env) tid (form_user_id f) amt
               (form_location f) t (form_txn_type f) db)
  \/
  (exists e,
     (fst out = ([DatabaseError e; DatabaseError ProgrammingError],
                 redirect "view_transactions")
      \/
      (fst out = ([DatabaseError e], internal_server_error) /\
       exists k, faults env k = true)) /\
     (snd out = db \/
      snd out = rewrite_rows tid (form_user_id f) amt (form_location f) t
                  (form_txn_type f) db)).
Proof.
  intros Hv Ht out.
  destruct (update_transaction_any_env py_float_text tid f env db amt t Hv Ht)
    as [H | [(Hfst & _ & Hsnd) | (e & Hfst & [Hsnd | (_ & _ & Hsnd)])]];
    fold out in H || fold out in Hfst, Hsnd.
  - left. exact H.
  - right. left. split; assumption.
  - right. right. exists e. split; [exact Hfst | left; exact Hsnd].
  - right. right. exists e. split; [exact Hfst | right; exact Hsnd].
Qed.

Lemma update_has_one_intermediate_state_witness :
  update_transaction whole_real_text POST "TXN001"
    (request "" "USER001" 20000 600) (failing 3) one_ok =
  (([DatabaseError OperationalError; DatabaseError ProgrammingError],
    redirect "view_transactions"),
   rewrite_rows "TXN001" "USER001" 20000 "Delhi" 600 "Debit" one_ok).
Proof.
  destruct (update_has_one_intermediate_state whole_real_text "TXN001"
              (request "" "USER001" 20000 600) (failing 3)
              one_ok 20000 600
              (conj eq_refl (conj eq_refl (conj eq_refl (conj eq_refl eq_refl))))
              eq_refl)
    as [(H & _) | [(H & _) | (e & _ & _)]];
    [discriminate H | discriminate H | reflexivity].
Defined.

(** X4.  The [GET] of the update route never changes the file.  When the
    connect fails an exception leaves the handler.  When the lookup fails
    it answers with the database error.  When the engine serves both it
    answers [Transaction not found!] for an identifier that is not stored
    and shows the edit form on a stored row of that identifier otherwise. *)
Theorem edit_form_lookup
    (py_float_text : Real -> string) (tid : string) (f : Form) (env : Env)
    (db : Database) :
  let out := update_transaction py_float_text GET tid f env db in
  snd out = db /\
  (faults env 0%nat = true -> fst out = ([], internal_server_error)) /\
  (faults env 0%nat = false -> faults env 1%nat = true ->
   fst out = ([DatabaseError OperationalError], redirect "view_transactions")) /\
  (faults env 0%nat = false -> faults env 1%nat = false ->
   (stored tid db = false ->
    fst out = ([TransactionNotFound], redirect "view_transactions")) /\
   (stored tid db = true ->
    exists r, In r (transactions db) /\ transaction_id r = tid /\
              fst out = ([], render_transaction "update_transaction.html" r))).
Proof.
  intro out. subst out.
  unfold update_transaction, edit_form, select_transaction.
  run_sql.
  destruct (filter (has_tid tid) (transactions db)) as [|r rs] eqn:E.
  - assert (Hmiss : stored tid db = false) by (apply filter_nil_existsb, E).
    each_fault env; rewrite ?E; simpl;
      (split; [reflexivity|]); (split; [|split]);
      try discriminate; try reflexivity; try (intros; reflexivity);
      intros _ _; (split; [reflexivity | congruence]).
  - assert (Hin : In r (transactions db) /\ transaction_id r = tid).
    { assert (In r (filter (has_tid tid) (transactions db))) as Hin
          by (rewrite E; left; reflexivity).
      apply filter_In in Hin. destruct Hin as [Hin Hid].
      split; [exact Hin | apply String.eqb_eq, Hid]. }
    assert (Hst : stored tid db = true).
    { unfold stored. apply existsb_exists. exists r. destruct Hin as [Hin Hid].
      split; [exact Hin | apply String.eqb_eq, Hid]. }
    destruct Hin as [Hin Hid].
    each_fault env; rewrite ?E; simpl;
      (split; [reflexivity|]); (split; [|split]);
      try discriminate; try reflexivity; try (intros; reflexivity);
      intros _ _; (split; [congruence|]); intros _; exists r; auto.
Qed.

(** ** Invariants of the transactions table *)

Lemma not_stored_not_in tid db :
  stored tid db = false -> ~ In tid (map transaction_id (transactions db)).
Proof.
  intros Hmiss Hin. apply in_map_iff in Hin. destruct Hin as (r & Hid & Hin).
  exact (not_stored_row tid db r Hmiss Hin Hid).
Qed.

Lemma rewrite_rows_ids tid uid amt loc t ty db :
  map (fun r => (t_id r, transaction_id r))
      (transactions (rewrite_rows tid uid amt loc t ty db)) =
  map (fun r => (t_id r, transaction_id r)) (transactions db).
Proof.
  simpl. rewrite map_map. apply map_ext. intro r.
  destruct (has_tid tid r); reflexivity.
Qed.

Lemma reevaluated_ids py_float_text now tid uid amt loc t ty db :
  map (fun r => (t_id r, transaction_id r))
      (transactions (reevaluated py_float_text now tid uid amt loc t ty db)) =
  map (fun r => (t_id r, transaction_id r)) (transactions db).
Proof.
  rewrite reevaluated_transactions, map_map. apply map_ext. intro r.
  destruct (has_tid tid r); reflexivity.
Qed.

Lemma ids_of_pairs (rows rows' : list Transaction) :
  map (fun r => (t_id r, transaction_id r)) rows' =
  map (fun r => (t_id r, transaction_id r)) rows ->
  map transaction_id rows' = map transaction_id rows.
Proof.
  intro H. apply (f_equal (map snd)) in H. rewrite !map_map in H. exact H.
Qed.

Lemma unique_ids_created sql_real_text rapid_first now tid uid amt loc t ty db :
  stored tid db = false ->
  unique_ids db ->
  unique_ids (created sql_real_text rapid_first now tid uid amt loc t ty db).
Proof.
  intros Hnew Hu. unfold unique_ids.
  rewrite created_transactions by exact Hnew. rewrite map_app. simpl.
  apply NoDup_app; [exact Hu | repeat constructor; intros [] |].
  intros a Ha [E | []]. subst a. exact (not_stored_not_in tid db Hnew Ha).
Qed.

Lemma NoDup_map_filter {A B} (g : A -> B) (p : A -> bool) (l : list A) :
  NoDup (map g l) -> NoDup (map g (filter p l)).
Proof.
  induction l as [|x l IH]; simpl; [auto|].
  intro H. inversion H as [|y l' Hnot Hl]; subst.
  destruct (p x); simpl; [|auto].
  constructor; [|auto]. intro Hin. apply Hnot.
  apply in_map_iff in Hin. destruct Hin as (z & Hz & Hin).
  apply filter_In in Hin. apply in_map_iff. exists z. tauto.
Qed.

Lemma unique_ids_removed tid db :
  unique_ids db -> unique_ids (remove_rows tid (clear_alerts tid db)).
Proof. unfold unique_ids. simpl. apply NoDup_map_filter. Qed.

(** X5.  No handler ever puts two rows under one [transaction_id],
    whatever the form and whatever the engine does; and an update, however
    it ends, never changes the key or the [transaction_id] of a row. *)
Theorem identifiers_stay_unique
    (sql_real_text py_float_text : Real -> string) (rapid_first : bool)
    (tid : string) (f : Form) (env : Env) (db : Database) :
  unique_ids db ->
  unique_ids (snd (add_transaction sql_real_text rapid_first POST f env db)) /\
  unique_ids (snd (update_transaction py_float_text POST tid f env db)) /\
  unique_ids (snd (delete_transaction tid env db)) /\
  map (fun r => (t_id r, transaction_id r))
      (transactions (snd (update_transaction py_float_text POST tid f env db))) =
  map (fun r => (t_id r, transaction_id r)) (transactions db).
Proof.
  intro Hu.
  assert (Hup : map (fun r => (t_id r, transaction_id r))
                  (transactions
                     (snd (update_transaction py_float_text POST tid f env db))) =
                map (fun r => (t_id r, transaction_id r)) (transactions db)).
  { destruct (update_transaction_store py_float_text tid f env db)
      as [E | [(amt & t & _ & _ & _ & [E | (_ & E)]) | (_ & _ & E)]];
      rewrite E; auto using rewrite_rows_ids, reevaluated_ids. }
  split; [|split; [|split; [|exact Hup]]].
  - destruct (add_transaction_any_env sql_real_text rapid_first f env db)
      as [(_ & Hnew & _ & _ & amt & _ & E) | (E & _)]; rewrite E;
      [apply unique_ids_created; assumption | exact Hu].
  - unfold unique_ids. rewrite (ids_of_pairs _ _ Hup). exact Hu.
  - destruct (delete_transaction_any_env tid env db) as [[_ E] | [E _]];
      rewrite E; [apply unique_ids_removed, Hu | exact Hu].
Qed.

Lemma identifiers_stay_unique_witness :
  unique_ids (snd (add_transaction whole_real_text true POST
                     (request "TXN002" "USER001" 700 900) quiet one_ok)).
Proof.
  refine (proj1 (identifiers_stay_unique whole_real_text whole_real_text true
                   "TXN001" (request "TXN002" "USER001" 700 900) quiet one_ok _)).
  unfold unique_ids. simpl. constructor; [intros [] | constructor].
Defined.

Lemma row_well_formed_set_status s r :
  row_well_formed r -> row_well_formed (set_status s r).
Proof. intro H. exact H. Qed.

Lemma rows_well_formed_created sql_real_text rapid_first now f env db amt :
  stored (form_transaction_id f) db = false ->
  filled (form_transaction_id f) = true ->
  passes_validation f amt ->
  txn_type_ok (form_txn_type f) = true ->
  rows_well_formed db ->
  rows_well_formed
    (created sql_real_text rapid_first now (form_transaction_id f)
       (form_user_id f) amt (form_location f) (resolved_time f env)
       (form_txn_type f) db).
Proof.
  intros Hnew Hid (Hu & Hl & _ & _ & Hpos) Hty Hw r Hin.
  rewrite created_transactions in Hin by exact Hnew.
  apply in_app_or in Hin. destruct Hin as [Hin | [E | []]]; [auto|].
  subst r. repeat split; assumption.
Qed.

Lemma rows_well_formed_rewritten tid f db amt t :
  passes_validation f amt ->
  (stored tid db = true -> txn_type_ok (form_txn_type f) = true) ->
  rows_well_formed db ->
  rows_well_formed
    (rewrite_rows tid (form_user_id f) amt (form_location f) t (form_txn_type f) db).
Proof.
  intros (Hu & Hl & _ & _ & Hpos) Hty Hw r' Hin. simpl in Hin.
  apply in_map_iff in Hin. destruct Hin as (r & E & Hin).
  destruct (has_tid tid r) eqn:Hid; subst r'; [|auto].
  destruct (Hw r Hin) as (Hrid & _).
  repeat split; auto. apply Hty. unfold stored.
  apply existsb_exists. exists r. split; assumption.
Qed.

Lemma rows_well_formed_reevaluated py_float_text now tid f db amt t :
  passes_validation f amt ->
  (stored tid db = true -> txn_type_ok (form_txn_type f) = true) ->
  rows_well_formed db ->
  rows_well_formed
    (reevaluated py_float_text now tid (form_user_id f) amt (form_location f) t
       (form_txn_type f) db).
Proof.
  intros (Hu & Hl & _ & _ & Hpos) Hty Hw r' Hin.
  rewrite reevaluated_transactions in Hin.
  apply in_map_iff in Hin. destruct Hin as (r & E & Hin).
  destruct (has_tid tid r) eqn:Hid; subst r'; [|auto].
  destruct (Hw r Hin) as (Hrid & _).
  repeat split; auto. apply Hty. unfold stored.
  apply existsb_exists. exists r. split; assumption.
Qed.

Lemma rows_well_formed_removed tid db :
  rows_well_formed db -> rows_well_formed (remove_rows tid (clear_alerts tid db)).
Proof.
  intros Hw r Hin. simpl in Hin. apply filter_In in Hin. apply Hw, Hin.
Qed.

(** X6.  Every row the handlers write has passed validation and the
    [CHECK] on [txn_type]: if every stored row has a filled identifier,
    user and location, a type among Credit and Debit and a positive
    amount, the same holds after any create, update or delete, whatever
    the form and whatever the engine does. *)
Theorem stored_rows_stay_well_formed
    (sql_real_text py_float_text : Real -> string) (rapid_first : bool)
    (tid : string) (f : Form) (env : Env) (db : Database) :
  rows_well_formed db ->
  rows_well_formed (snd (add_transaction sql_real_text rapid_first POST f env db)) /\
  rows_well_formed (snd (update_transaction py_float_text POST tid f env db)) /\
  rows_well_formed (snd (delete_transaction tid env db)).
Proof.
  intro Hw. split; [|split].
  - destruct (add_transaction_any_env sql_real_text rapid_first f env db)
      as [(_ & Hnew & Hty & Hid & amt & Hv & E) | (E & _)]; rewrite E;
      [apply rows_well_formed_created; assumption | exact Hw].
  - destruct (update_transaction_store py_float_text tid f env db)
      as [E | [(amt & t & Hv & _ & Hty & [E | (_ & E)]) | (_ & _ & E)]];
      rewrite E; auto using rows_well_formed_rewritten, rows_well_formed_reevaluated.
  - destruct (delete_transaction_any_env tid env db) as [[_ E] | [E _]];
      rewrite E; [apply rows_well_formed_removed, Hw | exact Hw].
Qed.

Lemma stored_rows_stay_well_formed_witness :
  rows_well_formed
    (snd (update_transaction whole_real_text POST "TXN001"
            (request "" "USER001" 20000 600) quiet one_ok)).
Proof.
  refine (proj1 (proj2 (stored_rows_stay_well_formed whole_real_text
                          whole_real_text true "TXN001"
                          (request "" "USER001" 20000 600) quiet one_ok _))).
  intros r [E | []]. subst r. repeat split.
Defined.

(** ** Keys of alerts *)

Lemma created_seq sql_real_text rapid_first now tid uid amt loc t ty db :
  seq_fraud_alerts (created sql_real_text rapid_first now tid uid amt loc t ty db) =
  seq_fraud_alerts db
  + Z.of_nat (List.length
                (triggered rapid_first (sql_real_text amt) now (seq_fraud_alerts db)
                   tid uid amt (S (count_window uid t (transactions db))))).
Proof.
  unfold created, triggered, produced, trg_flag_rapid_txns,
    trg_flag_high_amount, high_alert, rapid_alert.
  destruct rapid_first; proj_db; destruct (Rgtb amt 10000); proj_db;
    rewrite ?count_window_flagged, ?count_window_new_row;
    destruct (5 <? S (count_window uid t (transactions db)))%nat eqn:E; proj_db;
    rewrite ?count_window_flagged, ?count_window_new_row, ?E; proj_db;
    simpl; lia.
Qed.

Lemma reevaluated_seq py_float_text now tid uid amt loc t ty db :
  seq_fraud_alerts (reevaluated py_float_text now tid uid amt loc t ty db) =
  seq_fraud_alerts db
  + Z.of_nat (List.length
                (produced (py_float_text amt) now (seq_fraud_alerts db) tid uid amt
                   (count_rewritten tid uid amt loc t ty db))).
Proof.
  unfold reevaluated, rapid_step, high_step, produced, count_rewritten,
    high_alert, rapid_alert.
  destruct (Rgtb amt 10000); proj_db; rewrite ?count_window_flagged;
    unfold clear_alerts, rewrite_rows; proj_db;
    match goal with |- context [(5 <? ?m)%nat] => destruct (5 <? m)%nat end;
    proj_db; simpl; lia.
Qed.

Lemma triggered_keys rapid_first shown now seq tid uid amt n :
  NoDup (map fa_id (triggered rapid_first shown now seq tid uid amt n)) /\
  forall a, In a (triggered rapid_first shown now seq tid uid amt n) ->
            seq < fa_id a <=
            seq + Z.of_nat (List.length
                              (triggered rapid_first shown now seq tid uid amt n)).
Proof.
  unfold triggered, produced.
  destruct rapid_first, (Rgtb amt 10000), (5 <? n)%nat; simpl; split;
    try (repeat constructor; simpl; intuition lia);
    intros a H; intuition (subst; simpl; lia).
Qed.

Lemma produced_keys shown now seq tid uid amt n :
  NoDup (map fa_id (produced shown now seq tid uid amt n)) /\
  forall a, In a (produced shown now seq tid uid amt n) ->
            seq < fa_id a <=
            seq + Z.of_nat (List.length (produced shown now seq tid uid amt n)).
Proof. exact (triggered_keys false shown now seq tid uid amt n). Qed.

Lemma keys_extend (old new : list FraudAlert) (seq seq' : Z) :
  seq <= seq' ->
  NoDup (map fa_id old) ->
  (forall a, In a old -> fa_id a <= seq) ->
  NoDup (map fa_id new) ->
  (forall a, In a new -> seq < fa_id a <= seq') ->
  NoDup (map fa_id (old ++ new)) /\
  forall a, In a (old ++ new) -> fa_id a <= seq'.
Proof.
  intros Hle Ho Hb Hn Hf. split.
  - rewrite map_app. apply NoDup_app; auto.
    intros k Hk Hk'. apply in_map_iff in Hk. apply in_map_iff in Hk'.
    destruct Hk as (a & Ea & Ha). destruct Hk' as (b & Eb & Hb').
    specialize (Hb a Ha). specialize (Hf b Hb'). lia.
  - intros a Ha. apply in_app_or in Ha. destruct Ha as [Ha | Ha].
    + specialize (Hb a Ha). lia.
    + apply Hf, Ha.
Qed.

Lemma keys_in_sequence_created sql_real_text rapid_first now tid uid amt loc t ty db :
  keys_in_sequence db ->
  keys_in_sequence (created sql_real_text rapid_first now tid uid amt loc t ty db).
Proof.
  intros [Hn Hb]. unfold keys_in_sequence.
  rewrite created_fraud_alerts, created_seq.
  destruct (triggered_keys rapid_first (sql_real_text amt) now
              (seq_fraud_alerts db) tid uid amt
              (S (count_window uid t (transactions db)))) as [Hn' Hf].
  apply keys_extend with (seq := seq_fraud_alerts db); auto. lia.
Qed.

Lemma keys_in_sequence_reevaluated py_float_text now tid uid amt loc t ty db :
  keys_in_sequence db ->
  keys_in_sequence (reevaluated py_float_text now tid uid amt loc t ty db).
Proof.
  intros [Hn Hb]. unfold keys_in_sequence.
  rewrite reevaluated_fraud_alerts, reevaluated_seq.
  destruct (produced_keys (py_float_text amt) now (seq_fraud_alerts db) tid uid
              amt (count_rewritten tid uid amt loc t ty db)) as [Hn' Hf].
  apply keys_extend with (seq := seq_fraud_alerts db); auto.
  - lia.
  - apply NoDup_map_filter, Hn.
  - intros a Ha. apply filter_In in Ha. apply Hb, Ha.
Qed.

Lemma keys_in_sequence_cleared tid db :
  keys_in_sequence db -> keys_in_sequence (clear_alerts tid db).
Proof.
  intros [Hn Hb]. split; simpl.
  - apply NoDup_map_filter, Hn.
  - intros a Ha. apply filter_In in Ha. apply Hb, Ha.
Qed.

Lemma keys_in_sequence_removed tid db :
  keys_in_sequence db -> keys_in_sequence (remove_rows tid (clear_alerts tid db)).
Proof.
  intros [Hn Hb]. split; simpl.
  - apply NoDup_map_filter, Hn.
  - intros a Ha. apply filter_In in Ha. apply Hb, Ha.
Qed.

(** X7.  Keys of alerts are never given twice: if the keys in
    [fraud_alerts] are pairwise distinct and none is above the last key
    given out, the same holds after any create, update or delete, whatever
    the form and whatever the engine does, and the last key given out
    never goes down. *)
Theorem alert_keys_are_never_reused
    (sql_real_text py_float_text : Real -> string) (rapid_first : bool)
    (tid : string) (f : Form) (env : Env) (db : Database) :
  keys_in_sequence db ->
  (keys_in_sequence (snd (add_transaction sql_real_text rapid_first POST f env db)) /\
   seq_fraud_alerts db <=
   seq_fraud_alerts (snd (add_transaction sql_real_text rapid_first POST f env db))) /\
  (keys_in_sequence (snd (update_transaction py_float_text POST tid f env db)) /\
   seq_fraud_alerts db <=
   seq_fraud_alerts (snd (update_transaction py_float_text POST tid f env db))) /\
  (keys_in_sequence (snd (delete_transaction tid env db)) /\
   seq_fraud_alerts (snd (delete_transaction tid env db)) = seq_fraud_alerts db).
Proof.
  intro Hk. split; [|split].
  - destruct (add_transaction_any_env sql_real_text rapid_first f env db)
      as [(_ & _ & _ & _ & amt & _ & E) | (E & _)]; rewrite E.
    + split; [apply keys_in_sequence_created, Hk|]. rewrite created_seq. lia.
    + split; [exact Hk | lia].
  - destruct (update_transaction_store py_float_text tid f env db)
      as [E | [(amt & t & _ & _ & _ & [E | (_ & E)]) | (_ & _ & E)]];
      rewrite E.
    + split; [exact Hk | lia].
    + split; [apply keys_in_sequence_reevaluated, Hk|]. rewrite reevaluated_seq. lia.
    + split; [exact Hk | simpl; lia].
    + split; [apply keys_in_sequence_cleared, Hk | simpl; lia].
  - destruct (delete_transaction_any_env tid env db) as [[_ E] | [E _]];
      rewrite E; split; auto using keys_in_sequence_removed.
Qed.

Lemma alert_keys_are_never_reused_witness :
  keys_in_sequence
    (snd (update_transaction whole_real_text POST "TXN001"
            (request "" "USER001" 12000 600) quiet one_flagged)) /\
  seq_fraud_alerts one_flagged <=
  seq_fraud_alerts
    (snd (update_transaction whole_real_text POST "TXN001"
            (request "" "USER001" 12000 600) quiet one_flagged)).
Proof.
  refine (proj1 (proj2 (alert_keys_are_never_reused whole_real_text
                          whole_real_text true "TXN001"
                          (request "" "USER001" 12000 600) quiet one_flagged _))).
  split.
  - simpl. constructor; [intros [] | constructor].
  - intros a [E | []]. subst a. simpl. lia.
Defined.

(** ** What an operation leaves alone *)

Lemma has_tid_other_filter (tid other : string) (rows : list Transaction) :
  other <> tid ->
  filter (has_tid other) (filter (fun r => negb (has_tid tid r)) rows) =
  filter (has_tid other) rows.
Proof.
  intro Hne. induction rows as [|r rows IH]; simpl; [reflexivity|].
  destruct (has_tid tid r) eqn:E1, (has_tid other r) eqn:E2; simpl;
    rewrite ?E2, ?IH; try reflexivity.
  unfold has_tid in E1, E2.
  apply String.eqb_eq in E1. apply String.eqb_eq in E2. congruence.
Qed.

Lemma rows_other_rewritten (tid other : string) (g : Transaction -> Transaction)
    (rows : list Transaction) :
  other <> tid ->
  (forall r, transaction_id (g r) = transaction_id r) ->
  filter (has_tid other) (map (fun r => if has_tid tid r then g r else r) rows) =
  filter (has_tid other) rows.
Proof.
  intros Hne Hg. induction rows as [|r rows IH]; simpl; [reflexivity|].
  destruct (has_tid tid r) eqn:E1.
  - unfold has_tid in E1. apply String.eqb_eq in E1.
    assert (E2 : has_tid other r = false)
      by (unfold has_tid; apply String.eqb_neq; congruence).
    assert (E3 : has_tid other (g r) = false)
      by (unfold has_tid; rewrite Hg; exact E2).
    rewrite E2, E3. exact IH.
  - destruct (has_tid other r); rewrite IH; reflexivity.
Qed.

Lemma rows_other_created sql_real_text rapid_first now tid uid amt loc t ty db other :
  other <> tid ->
  stored tid db = false ->
  filter (has_tid other)
    (transactions (created sql_real_text rapid_first now tid uid amt loc t ty db)) =
  filter (has_tid other) (transactions db).
Proof.
  intros Hne Hnew. rewrite created_transactions by exact Hnew.
  rewrite filter_app. simpl. unfold has_tid at 2. simpl.
  assert (E : (tid =? other)%string = false)
    by (apply String.eqb_neq; congruence).
  rewrite E. apply app_nil_r.
Qed.

(** X8.  An operation on one transaction leaves every other transaction
    as it was, row and alerts: nothing is re-evaluated but the transaction
    that is created or updated, and a delete takes nothing but its own. *)
Theorem other_transactions_are_left_alone
    (sql_real_text py_float_text : Real -> string) (rapid_first : bool)
    (tid other : string) (f : Form) (env : Env) (db : Database) :
  (other <> form_transaction_id f ->
   let db' := snd (add_transaction sql_real_text rapid_first POST f env db) in
   filter (has_tid other) (transactions db') =
   filter (has_tid other) (transactions db) /\
   alerts_for other db' = alerts_for other db) /\
  (other <> tid ->
   let db' := snd (update_transaction py_float_text POST tid f env db) in
   filter (has_tid other) (transactions db') =
   filter (has_tid other) (transactions db) /\
   alerts_for other db' = alerts_for other db) /\
  (other <> tid ->
   let db' := snd (delete_transaction tid env db) in
   filter (has_tid other) (transactions db') =
   filter (has_tid other) (transactions db) /\
   alerts_for other db' = alerts_for other db).
Proof.
  split; [|split]; intros Hne db'; subst db'.
  - destruct (add_transaction_any_env sql_real_text rapid_first f env db)
      as [(_ & Hnew & _ & _ & amt & _ & E) | (E & _)]; rewrite E;
      [|split; reflexivity].
    split; [apply rows_other_created; assumption|].
    apply alerts_for_created_other, Hne.
  - destruct (update_transaction_store py_float_text tid f env db)
      as [E | [(amt & t & _ & _ & _ & [E | (_ & E)]) | (_ & _ & E)]];
      rewrite E; try (split; reflexivity).
    + split; [|apply alerts_for_reevaluated_other, Hne].
      rewrite reevaluated_transactions.
      apply rows_other_rewritten; [exact Hne | reflexivity].
    + split; [|reflexivity]. simpl.
      apply rows_other_rewritten; [exact Hne | reflexivity].
    + split; [reflexivity|]. unfold alerts_for. simpl.
      apply alert_of_other, Hne.
  - destruct (delete_transaction_any_env tid env db) as [[_ E] | [E _]];
      rewrite E; [|split; reflexivity].
    split; [apply has_tid_other_filter, Hne|].
    unfold alerts_for. simpl. apply alert_of_other, Hne.
Qed.

Lemma other_transactions_are_left_alone_witness :
  filter (has_tid "TXN001")
    (transactions
       (snd (add_transaction whole_real_text true POST
               (request "TXN006" "USER001" 950 240) quiet five_in_four_minutes))) =
  filter (has_tid "TXN001") (transactions five_in_four_minutes) /\
  alerts_for "TXN001"
    (snd (add_transaction whole_real_text true POST
            (request "TXN006" "USER001" 950 240) quiet five_in_four_minutes)) =
  alerts_for "TXN001" five_in_four_minutes.
Proof.
  refine (proj1 (other_transactions_are_left_alone whole_real_text
                   whole_real_text true "TXN006" "TXN001"
                   (request "TXN006" "USER001" 950 240) quiet
                   five_in_four_minutes) _).
  intro H. discriminate H.
Defined.

(** ** Status after an update *)

(** X9.  An update that goes through settles the status of its
    transaction whatever the store held before: afterwards each row of
    that identifier is FLAGGED exactly when an alert references it, also
    when status and alerts disagreed before the update. *)
Theorem update_settles_the_status
    (py_float_text : Real -> string) (tid : string) (f : Form) (env : Env)
    (db : Database) (amt : Real) (t : Z) :
  served env ->
  passes_validation f amt ->
  txn_type_ok (form_txn_type f) = true ->
  form_txn_time f = Some t ->
  let db' := snd (update_transaction py_float_text POST tid f env db) in
  forall r, In r (transactions db') -> transaction_id r = tid ->
            (status r = FLAGGED <-> alerts_for tid db' <> []).
Proof.
  intros Hf Hv Hty Ht db' r Hin Hid. subst db'.
  rewrite update_transaction_success with (amt := amt) (t := t) in *; auto.
  cbn [snd] in *.
  apply reevaluated_row_status in Hin; [|exact Hid].
  destruct Hin as (_ & _ & _ & _ & _ & Hs).
  rewrite Hs, alerts_for_reevaluated. symmetry. apply produced_flags.
Qed.

Lemma update_settles_the_status_witness :
  status (row 1 "TXN404" "USER001" 700 600 OK) = FLAGGED <->
  alerts_for "TXN404"
    (snd (update_transaction whole_real_text POST "TXN404"
            (request "" "USER001" 700 600) quiet
            (snd create_after_stray_update))) <> [].
Proof.
  refine (update_settles_the_status whole_real_text "TXN404"
            (request "" "USER001" 700 600) quiet (snd create_after_stray_update)
            700 600 (fun _ => eq_refl)
            (conj eq_refl (conj eq_refl (conj eq_refl (conj eq_refl eq_refl))))
            eq_refl eq_refl (row 1 "TXN404" "USER001" 700 600 OK) _ eq_refl).
  left. reflexivity.
Defined.

(** X10.  From a store where every row is FLAGGED exactly when an alert
    references it and every alert references a stored row, a create and a
    delete, whatever the form and whatever the engine does, and an update
    of a stored identifier that the engine serves, lead to such a store
    again. *)
Theorem sound_store_stays_sound
    (sql_real_text py_float_text : Real -> string) (rapid_first : bool)
    (tid : string) (f : Form) (env : Env) (db : Database) :
  store_invariant db ->
  store_invariant (snd (add_transaction sql_real_text rapid_first POST f env db)) /\
  store_invariant (snd (delete_transaction tid env db)) /\
  (served env -> stored tid db = true ->
   store_invariant (snd (update_transaction py_float_text POST tid f env db))).
Proof.
  intro Hi. split; [|split].
  - apply add_transaction_keeps_invariant, Hi.
  - apply delete_transaction_keeps_invariant, Hi.
  - intros Hf Hst. apply update_transaction_keeps_invariant; assumption.
Qed.

Lemma sound_store_stays_sound_witness :
  store_invariant
    (snd (add_transaction whole_real_text true POST
            (request "TXN001" "USER001" 12000 600) quiet empty_db)).
Proof.
  exact (proj1 (sound_store_stays_sound whole_real_text whole_real_text true
                  "TXN001" (request "TXN001" "USER001" 12000 600) quiet empty_db
                  empty_db_consistent)).
Defined.

(** ** Create, then look up or delete *)

Lemma created_rows_of_tid sql_real_text rapid_first now tid uid amt loc t ty db :
  stored tid db = false ->
  filter (has_tid tid)
    (transactions (created sql_real_text rapid_first now tid uid amt loc t ty db)) =
  [mkTransaction (seq_transactions db + 1) tid uid amt loc t ty
     (derived_status amt (S (count_window uid t (transactions db))))].
Proof.
  intro Hnew. rewrite created_transactions by exact Hnew.
  rewrite filter_app, (existsb_false_filter _ _ Hnew). simpl.
  unfold has_tid. simpl. rewrite String.eqb_refl. reflexivity.
Qed.

Lemma created_seq_transactions sql_real_text rapid_first now tid uid amt loc t ty db :
  seq_transactions (created sql_real_text rapid_first now tid uid amt loc t ty db) =
  seq_transactions db + 1.
Proof.
  unfold created, trg_flag_rapid_txns, trg_flag_high_amount.
  destruct rapid_first; proj_db; destruct (Rgtb amt 10000); proj_db;
    rewrite ?count_window_flagged, ?count_window_new_row;
    destruct (5 <? S (count_window uid t (transactions db)))%nat eqn:E; proj_db;
    rewrite ?count_window_flagged, ?count_window_new_row, ?E; proj_db;
    reflexivity.
Qed.

(** X11.  A transaction that a create has stored is the one the edit form
    shows for its identifier, with the submitted values, the resolved
    instant and the status its alerts give it; and the identifier is then
    taken: the same create, sent again, is answered with
    [Transaction ID already exists!] and changes nothing. *)
Theorem created_row_is_shown
    (sql_real_text py_float_text : Real -> string) (rapid_first : bool)
    (f f' : Form) (env env' : Env) (db : Database) (amt : Real) :
  served env ->
  served env' ->
  filled (form_transaction_id f) = true ->
  passes_validation f amt ->
  txn_type_ok (form_txn_type f) = true ->
  stored (form_transaction_id f) db = false ->
  let tid := form_transaction_id f in
  let db' := snd (add_transaction sql_real_text rapid_first POST f env db) in
  update_transaction py_float_text GET tid f' env' db' =
    (([], render_transaction "update_transaction.html"
            (mkTransaction (seq_transactions db + 1) tid (form_user_id f) amt
               (form_location f) (resolved_time f env) (form_txn_type f)
               (derived_status amt
                  (S (count_window (form_user_id f) (resolved_time f env)
                        (transactions db)))))),
     db') /\
  add_transaction sql_real_text rapid_first POST f env' db' =
    (([TransactionIdAlreadyExists], render_template "add_transaction.html"), db').
Proof.
  intros Hf Hf' Hid Hv Hty Hnew tid db'. subst db' tid.
  rewrite add_transaction_success with (amt := amt); auto. cbn [snd].
  split.
  - unfold update_transaction, edit_form, select_transaction.
    run_sql. serve Hf'.
    rewrite created_rows_of_tid by exact Hnew. reflexivity.
  - destruct Hv as (Hu & Hl & Hty' & Ha & Hpos).
    unfold add_transaction. rewrite Hid, Hu, Hl, Hty', Ha. simpl.
    rewrite (Rle_bool_pos _ Hpos).
    unfold add_body, select_transaction_id. run_sql. serve Hf'.
    rewrite created_rows_of_tid by exact Hnew. reflexivity.
Qed.

Lemma created_row_is_shown_witness :
  update_transaction whole_real_text GET "TXN001"
    (request "" "" 0 0) quiet scenario_a =
  (([], render_transaction "update_transaction.html"
          (row 1 "TXN001" "USER001" 12000 600 FLAGGED)), scenario_a).
Proof.
  exact (proj1 (created_row_is_shown whole_real_text whole_real_text true
                  (request "TXN001" "USER001" 12000 600) (request "" "" 0 0)
                  quiet quiet empty_db 12000 (fun _ => eq_refl)
                  (fun _ => eq_refl) eq_refl
                  (conj eq_refl (conj eq_refl (conj eq_refl (conj eq_refl eq_refl))))
                  eq_refl eq_refl)).
Defined.

(** X12.  A create followed by the delete of the same identifier gives
    back both tables as they were, when no alert was waiting for the
    identifier; only the key sequences keep their advance, so the keys the
    create gave out are not given again. *)
Theorem create_then_delete_restores_tables
    (sql_real_text : Real -> string) (rapid_first : bool)
    (f : Form) (env env' : Env) (db : Database) (amt : Real) :
  served env ->
  served env' ->
  filled (form_transaction_id f) = true ->
  passes_validation f amt ->
  txn_type_ok (form_txn_type f) = true ->
  stored (form_transaction_id f) db = false ->
  alerts_for (form_transaction_id f) db = [] ->
  let db1 := snd (add_transaction sql_real_text rapid_first POST f env db) in
  let db2 := snd (delete_transaction (form_transaction_id f) env' db1) in
  transactions db2 = transactions db /\
  fraud_alerts db2 = fraud_alerts db /\
  seq_transactions db2 = seq_transactions db + 1 /\
  seq_fraud_alerts db <= seq_fraud_alerts db2.
Proof.
  intros Hf Hf' Hid Hv Hty Hnew Hnone db1 db2. subst db2 db1.
  rewrite add_transaction_success with (amt := amt); auto. cbn [snd].
  rewrite delete_transaction_success by exact Hf'. cbn [snd].
  unfold remove_rows, clear_alerts. cbn [transactions fraud_alerts
    seq_transactions seq_fraud_alerts].
  split; [|split; [|split]].
  - rewrite created_transactions by exact Hnew.
    rewrite filter_app, (filter_none_id _ _ Hnew). simpl.
    unfold has_tid. simpl. rewrite String.eqb_refl. apply app_nil_r.
  - rewrite created_fraud_alerts, filter_app, triggered_cleared, app_nil_r.
    apply filter_none_id, filter_nil_existsb, Hnone.
  - apply created_seq_transactions.
  - rewrite created_seq. lia.
Qed.

Lemma create_then_delete_restores_tables_witness :
  transactions
    (snd (delete_transaction "TXN001" quiet scenario_a)) = [] /\
  fraud_alerts
    (snd (delete_transaction "TXN001" quiet scenario_a)) = [] /\
  seq_transactions
    (snd (delete_transaction "TXN001" quiet scenario_a)) = 0 + 1 /\
  0 <= seq_fraud_alerts
         (snd (delete_transaction "TXN001" quiet scenario_a)).
Proof.
  exact (create_then_delete_restores_tables whole_real_text true
           (request "TXN001" "USER001" 12000 600) quiet quiet empty_db 12000
           (fun _ => eq_refl) (fun _ => eq_refl) eq_refl
           (conj eq_refl (conj eq_refl (conj eq_refl (conj eq_refl eq_refl))))
           eq_refl eq_refl eq_refl).
Defined.

(** ** The two listings *)

Lemma insert_by_time_perm x l : Permutation (insert_by_time x l) (x :: l).
Proof.
  induction l as [|y l IH]; simpl; [apply Permutation_refl|].
  destruct (txn_time y <? txn_time x); [apply Permutation_refl|].
  apply Permutation_trans with (y :: x :: l);
    [apply perm_skip, IH | apply perm_swap].
Qed.

Lemma order_by_txn_time_perm l : Permutation (order_by_txn_time_desc l) l.
Proof.
  induction l as [|x l IH]; simpl; [apply Permutation_refl|].
  apply Permutation_trans with (x :: order_by_txn_time_desc l);
    [apply insert_by_time_perm | apply perm_skip, IH].
Qed.

Lemma insert_by_time_descending x l :
  descending (map txn_time l) -> descending (map txn_time (insert_by_time x l)).
Proof.
  induction l as [|y l IH]; simpl.
  - intros _. split; [intros z [] | exact I].
  - intros [Hy Hl]. destruct (txn_time y <? txn_time x) eqn:E; simpl.
    + apply Z.ltb_lt in E. split; [|split; assumption].
      intros z [Hz | Hz]; [lia|]. specialize (Hy z Hz). lia.
    + apply Z.ltb_ge in E. split; [|apply IH, Hl].
      intros z Hz. apply in_map_iff in Hz. destruct Hz as (r & Hr & Hin).
      apply (Permutation_in _ (insert_by_time_perm x l)) in Hin.
      destruct Hin as [Hin | Hin]; [subst; lia|].
      apply Hy. subst z. apply in_map, Hin.
Qed.

Lemma order_by_txn_time_descending l :
  descending (map txn_time (order_by_txn_time_desc l)).
Proof.
  induction l as [|x l IH]; simpl; [exact I|].
  apply insert_by_time_descending, IH.
Qed.

(** X13.  The transactions page never changes the file.  When the connect
    fails an exception leaves the handler.  When the query fails the page
    shows the error and an empty list.  When the engine serves both, the
    page lists every stored row once, the latest [txn_time] first. *)
Theorem transactions_listing_is_sorted (env : Env) (db : Database) :
  let out := view_transactions env db in
  snd out = db /\
  (faults env 0%nat = true -> fst out = ([], listing_server_error)) /\
  (faults env 0%nat = false -> faults env 1%nat = true ->
   fst out = ([DatabaseError OperationalError],
              render_transactions "view_transactions.html" [])) /\
  (faults env 0%nat = false -> faults env 1%nat = false ->
   exists rows,
     fst out = ([], render_transactions "view_transactions.html" rows) /\
     Permutation rows (transactions db) /\
     descending (map txn_time rows)).
Proof.
  intro out. subst out. unfold view_transactions, select_transactions. run_sql.
  each_fault env;
    (split; [reflexivity|]); (split; [|split]);
    try discriminate; try reflexivity; try (intros; reflexivity);
    intros _ _; eexists; (split; [reflexivity|]);
    (split; [apply order_by_txn_time_perm | apply order_by_txn_time_descending]).
Qed.

Lemma insert_desc_perm x l : Permutation (insert_desc x l) (x :: l).
Proof.
  induction l as [|y l IH]; simpl; [apply Permutation_refl|].
  destruct (fa_flagged_at (s_alert y) <? fa_flagged_at (s_alert x));
    [apply Permutation_refl|].
  apply Permutation_trans with (y :: x :: l);
    [apply perm_skip, IH | apply perm_swap].
Qed.

Lemma order_by_flagged_at_perm l : Permutation (order_by_flagged_at_desc l) l.
Proof.
  induction l as [|x l IH]; simpl; [apply Permutation_refl|].
  apply Permutation_trans with (x :: order_by_flagged_at_desc l);
    [apply insert_desc_perm | apply perm_skip, IH].
Qed.

Lemma insert_desc_descending x l :
  descending (map (fun s => fa_flagged_at (s_alert s)) l) ->
  descending (map (fun s => fa_flagged_at (s_alert s)) (insert_desc x l)).
Proof.
  induction l as [|y l IH]; simpl.
  - intros _. split; [intros z [] | exact I].
  - intros [Hy Hl].
    destruct (fa_flagged_at (s_alert y) <? fa_flagged_at (s_alert x)) eqn:E; simpl.
    + apply Z.ltb_lt in E. split; [|split; assumption].
      intros z [Hz | Hz]; [lia|]. specialize (Hy z Hz). lia.
    + apply Z.ltb_ge in E. split; [|apply IH, Hl].
      intros z Hz. apply in_map_iff in Hz. destruct Hz as (r & Hr & Hin).
      apply (Permutation_in _ (insert_desc_perm x l)) in Hin.
      destruct Hin as [Hin | Hin]; [subst; lia|].
      apply Hy. subst z.
      apply (in_map (fun s => fa_flagged_at (s_alert s))), Hin.
Qed.

Lemma order_by_flagged_at_descending l :
  descending (map (fun s => fa_flagged_at (s_alert s)) (order_by_flagged_at_desc l)).
Proof.
  induction l as [|x l IH]; simpl; [exact I|].
  apply insert_desc_descending, IH.
Qed.

Lemma join_alert_row rows a s :
  In s (join_alert rows a) ->
  s_alert s = a /\
  (existsb (has_tid (fa_transaction_id a)) rows = false ->
   s_location s = None /\ s_txn_time s = None /\ s_txn_type s = None) /\
  (existsb (has_tid (fa_transaction_id a)) rows = true ->
   exists r, In r rows /\ transaction_id r = fa_transaction_id a /\
             s_location s = Some (location r) /\
             s_txn_time s = Some (txn_time r) /\
             s_txn_type s = Some (txn_type r)).
Proof.
  unfold join_alert.
  destruct (filter (has_tid (fa_transaction_id a)) rows) as [|r0 ms] eqn:E.
  - intros [H | []]. subst s. simpl. split; [reflexivity|]. split; [auto|].
    intro Hex. rewrite (filter_nil_existsb _ _ E) in Hex. discriminate.
  - intro H. apply in_map_iff in H. destruct H as (r & Hs & Hin).
    assert (Hr : In r (filter (has_tid (fa_transaction_id a)) rows))
      by (rewrite E; exact Hin).
    apply filter_In in Hr. destruct Hr as [Hr Hid]. subst s. simpl.
    split; [reflexivity|]. split.
    + intro Hno. assert (existsb (has_tid (fa_transaction_id a)) rows = true)
        by (apply existsb_exists; exists r; auto). congruence.
    + intros _. exists r. repeat split; auto. apply String.eqb_eq, Hid.
Qed.

Lemma join_alert_keeps rows a : exists s, In s (join_alert rows a) /\ s_alert s = a.
Proof.
  unfold join_alert.
  destruct (filter (has_tid (fa_transaction_id a)) rows) as [|r0 ms].
  - eexists. split; [left; reflexivity | reflexivity].
  - eexists. split; [left; reflexivity | reflexivity].
Qed.

Lemma filter_unique_id tid rows :
  NoDup (map transaction_id rows) ->
  filter (has_tid tid) rows = [] \/ exists r, filter (has_tid tid) rows = [r].
Proof.
  induction rows as [|r rows IH]; simpl; [auto|].
  intro H. inversion H as [|x l Hnot Hl]; subst.
  destruct (has_tid tid r) eqn:E; [|auto].
  right. exists r. f_equal. apply existsb_false_filter.
  apply not_true_iff_false. intro Hex. apply existsb_exists in Hex.
  destruct Hex as (r' & Hin & Hid). apply Hnot.
  unfold has_tid in E, Hid. apply String.eqb_eq in E. apply String.eqb_eq in Hid.
  rewrite E, <- Hid. apply in_map, Hin.
Qed.

Lemma joined_alerts_unique rows alerts :
  NoDup (map transaction_id rows) ->
  map s_alert (flat_map (join_alert rows) alerts) = alerts.
Proof.
  intro Hu. induction alerts as [|a alerts IH]; simpl; [reflexivity|].
  rewrite map_app, IH. unfold join_alert.
  destruct (filter_unique_id (fa_transaction_id a) rows Hu) as [E | (r & E)];
    rewrite E; reflexivity.
Qed.

(** X14.  The alerts page never changes the file.  When the connect
    fails an exception leaves the handler.  When the query fails the page
    shows the error and no alert.  When the engine serves both, the page
    lists the alerts of the table, the latest [flagged_at] first, each
    beside the [location], [txn_time] and [txn_type] of a row carrying its
    [transaction_id]; an alert whose transaction is not stored is still
    listed, with these three columns empty.  With unique identifiers every
    alert is listed exactly once. *)
Theorem alerts_listing_is_a_left_join (env : Env) (db : Database) :
  let out := fraud_alerts_page env db in
  snd out = db /\
  (faults env 0%nat = true -> fst out = ([], internal_server_error)) /\
  (faults env 0%nat = false -> faults env 1%nat = true ->
   fst out = ([DatabaseError OperationalError],
              render_alerts "fraud_alerts.html" [])) /\
  (faults env 0%nat = false -> faults env 1%nat = false ->
   exists rows,
     fst out = ([], render_alerts "fraud_alerts.html" rows) /\
     descending (map (fun s => fa_flagged_at (s_alert s)) rows) /\
     (forall a, In a (fraud_alerts db) <-> exists s, In s rows /\ s_alert s = a) /\
     (forall s, In s rows ->
        (stored (fa_transaction_id (s_alert s)) db = false ->
         s_location s = None /\ s_txn_time s = None /\ s_txn_type s = None) /\
        (stored (fa_transaction_id (s_alert s)) db = true ->
         exists r, In r (transactions db) /\
                   transaction_id r = fa_transaction_id (s_alert s) /\
                   s_location s = Some (location r) /\
                   s_txn_time s = Some (txn_time r) /\
                   s_txn_type s = Some (txn_type r))) /\
     (unique_ids db -> Permutation (map s_alert rows) (fraud_alerts db))).
Proof.
  intro out. subst out. unfold fraud_alerts_page, select_suspicious. run_sql.
  assert (Hrows :
    let rows := order_by_flagged_at_desc (vw_suspicious db) in
    descending (map (fun s => fa_flagged_at (s_alert s)) rows) /\
    (forall a, In a (fraud_alerts db) <-> exists s, In s rows /\ s_alert s = a) /\
    (forall s, In s rows ->
       (stored (fa_transaction_id (s_alert s)) db = false ->
        s_location s = None /\ s_txn_time s = None /\ s_txn_type s = None) /\
       (stored (fa_transaction_id (s_alert s)) db = true ->
        exists r, In r (transactions db) /\
                  transaction_id r = fa_transaction_id (s_alert s) /\
                  s_location s = Some (location r) /\
                  s_txn_time s = Some (txn_time r) /\
                  s_txn_type s = Some (txn_type r))) /\
    (unique_ids db -> Permutation (map s_alert rows) (fraud_alerts db))).
  { intro rows. subst rows. split; [apply order_by_flagged_at_descending|].
    split; [|split].
    - intro a. split.
      + intro Ha. destruct (join_alert_keeps (transactions db) a) as (s & Hs & E).
        exists s. split; [|exact E].
        rewrite In_order_by. unfold vw_suspicious. rewrite In_order_by.
        apply in_flat_map. exists a. split; assumption.
      + intros (s & Hs & E). subst a. rewrite In_order_by in Hs.
        apply In_vw_suspicious, Hs.
    - intros s Hs. rewrite In_order_by in Hs. unfold vw_suspicious in Hs.
      rewrite In_order_by in Hs. apply in_flat_map in Hs.
      destruct Hs as (a & Ha & Hs). apply join_alert_row in Hs.
      destruct Hs as (E & Hnone & Hsome). subst a. unfold stored.
      split; assumption.
    - intro Hu.
      apply Permutation_trans with (map s_alert (vw_suspicious db));
        [apply Permutation_map, order_by_flagged_at_perm|].
      unfold vw_suspicious.
      apply Permutation_trans
        with (map s_alert (flat_map (join_alert (transactions db)) (fraud_alerts db)));
        [apply Permutation_map, order_by_flagged_at_perm|].
      rewrite joined_alerts_unique by exact Hu. apply Permutation_refl. }
  each_fault env;
    (split; [reflexivity|]); (split; [|split]);
    try discriminate; try reflexivity; try (intros; reflexivity);
    intros _ _; eexists; (split; [reflexivity | exact Hrows]).
Qed.

(** ** The sample data *)

Lemma insert_or_ignore_stored sql_real_text rapid_first now r db :
  stored (sample_id r) db = true ->
  insert_or_ignore sql_real_text rapid_first now r db = skip_row db.
Proof.
  destruct r as [[[[[tid uid] amt] loc] t] ty]. unfold sample_id. simpl.
  intro Hst. unfold insert_or_ignore, insert_transaction. unfold stored in Hst.
  rewrite Hst. reflexivity.
Qed.

Lemma insert_or_ignore_keeps sql_real_text rapid_first now r db x :
  stored x db = true ->
  stored x (insert_or_ignore sql_real_text rapid_first now r db) = true.
Proof.
  destruct r as [[[[[tid uid] amt] loc] t] ty]. intro Hst.
  unfold insert_or_ignore, insert_transaction.
  destruct (existsb (has_tid tid) (transactions db)) eqn:E; simpl; [exact Hst|].
  destruct (txn_type_ok ty); simpl; [|exact Hst].
  change (stored x (created sql_real_text rapid_first now tid uid amt loc t ty db)
          = true).
  unfold stored. rewrite created_transactions by exact E.
  rewrite existsb_app. unfold stored in Hst. rewrite Hst. reflexivity.
Qed.

Lemma insert_or_ignore_stores sql_real_text rapid_first now r db :
  txn_type_ok (snd r) = true ->
  stored (sample_id r) (insert_or_ignore sql_real_text rapid_first now r db) = true.
Proof.
  destruct r as [[[[[tid uid] amt] loc] t] ty]. unfold sample_id. simpl.
  intro Hty. unfold insert_or_ignore, insert_transaction.
  destruct (existsb (has_tid tid) (transactions db)) eqn:E; simpl; [exact E|].
  rewrite Hty. simpl.
  change (stored tid (created sql_real_text rapid_first now tid uid amt loc t ty db)
          = true).
  apply created_stored, E.
Qed.

Section InsertMany.

Variable sql_real_text : Real -> string.
Variable rapid_first : bool.

Lemma insert_many_keeps now rs db x :
  stored x db = true ->
  stored x (fold_left (fun db r => insert_or_ignore sql_real_text rapid_first now r db)
                      rs db) = true.
Proof.
  revert db. induction rs as [|r rs IH]; simpl; intros db Hst; [exact Hst|].
  apply IH, insert_or_ignore_keeps, Hst.
Qed.

Lemma insert_many_stores now rs db :
  (forall r, In r rs -> txn_type_ok (snd r) = true) ->
  forall r, In r rs ->
    stored (sample_id r)
      (fold_left (fun db r => insert_or_ignore sql_real_text rapid_first now r db)
                 rs db) = true.
Proof.
  revert db. induction rs as [|r0 rs IH]; simpl; intros db Hty r Hin; [contradiction|].
  destruct Hin as [E | Hin].
  - subst r0. apply insert_many_keeps, insert_or_ignore_stores, Hty. auto.
  - apply IH; auto.
Qed.

(** Rows that are all stored already are all skipped: the tables stay and
    the counter of [transactions] moves on by one for each. *)
Lemma insert_many_again now rs : forall db,
  (forall r, In r rs -> stored (sample_id r) db = true) ->
  fold_left (fun db r => insert_or_ignore sql_real_text rapid_first now r db) rs db
  = mkDatabase (transactions db) (fraud_alerts db)
               (seq_transactions db + Z.of_nat (List.length rs))
               (seq_fraud_alerts db).
Proof.
  induction rs as [|r rs IH]; intros db Hst.
  - simpl. rewrite Z.add_0_r. destruct db; reflexivity.
  - cbn [fold_left]. rewrite insert_or_ignore_stored by (apply Hst; left; reflexivity).
    rewrite IH.
    + unfold skip_row. cbn [transactions fraud_alerts seq_transactions
                            seq_fraud_alerts List.length].
      f_equal. lia.
    + intros r' Hin. unfold stored, skip_row. cbn [transactions].
      apply Hst. right. exact Hin.
Qed.

End InsertMany.

(** X15.  Inserting the sample data is safe to repeat as far as the
    tables go: after one run every sample identifier is stored and the
    rows that were stored before are kept under their identifiers; a second
    run, at any instant, skips all eight rows and leaves both tables and
    the keys of the alerts as they were.  It still draws eight keys of
    [transactions], which are not given again. *)
Theorem sample_data_is_inserted_once
    (sql_real_text : Real -> string) (rapid_first : bool) (now now' : Z)
    (db : Database) :
  let once := insert_sample_data sql_real_text rapid_first now db in
  let twice := insert_sample_data sql_real_text rapid_first now' once in
  (forall r, In r sample_transactions -> stored (sample_id r) once = true) /\
  (forall x, stored x db = true -> stored x once = true) /\
  transactions twice = transactions once /\
  fraud_alerts twice = fraud_alerts once /\
  seq_fraud_alerts twice = seq_fraud_alerts once /\
  seq_transactions twice = seq_transactions once + 8.
Proof.
  intros once twice.
  assert (Hty : forall r, In r sample_transactions -> txn_type_ok (snd r) = true).
  { intros r Hin. simpl in Hin.
    repeat (destruct Hin as [E | Hin]; [subst r; reflexivity|]). contradiction. }
  assert (Hall : forall r, In r sample_transactions -> stored (sample_id r) once = true).
  { subst once. unfold insert_sample_data. apply insert_many_stores, Hty. }
  split; [exact Hall|]. split.
  - intros x Hx. subst once. unfold insert_sample_data.
    apply insert_many_keeps, Hx.
  - assert (E : twice = mkDatabase (transactions once) (fraud_alerts once)
                                   (seq_transactions once + 8)
                                   (seq_fraud_alerts once)).
    { subst twice. unfold insert_sample_data at 1.
      rewrite insert_many_again by exact Hall. reflexivity. }
    rewrite E. repeat split; reflexivity.
Qed.

(** ** The constraint on the type and the optional instant *)

(** X16.  A [txn_type] other than Credit and Debit is stopped by the
    [CHECK] constraint and nothing is written: a create of a free
    identifier reports it as [Transaction ID already exists!], an update
    of a stored identifier as a database error, followed by the error of
    the closed connection. *)
Theorem unknown_type_is_refused_by_the_store
    (sql_real_text py_float_text : Real -> string) (rapid_first : bool)
    (tid : string) (f : Form) (env : Env) (db : Database) (amt : Real) (t : Z) :
  served env ->
  passes_validation f amt ->
  txn_type_ok (form_txn_type f) = false ->
  (filled (form_transaction_id f) = true ->
   stored (form_transaction_id f) db = false ->
   add_transaction sql_real_text rapid_first POST f env db =
     (([TransactionIdAlreadyExists], render_template "add_transaction.html"), db))
  /\
  (form_txn_time f = Some t ->
   stored tid db = true ->
   update_transaction py_float_text POST tid f env db =
     (([DatabaseError IntegrityError; DatabaseError ProgrammingError],
       redirect "view_transactions"), db)).
Proof.
  intros Hf (Hu & Hl & Hty & Ha & Hpos) Hbad. split.
  - intros Hid Hnew.
    unfold add_transaction. rewrite Hid, Hu, Hl, Hty, Ha. simpl.
    rewrite (Rle_bool_pos _ Hpos).
    unfold add_body, select_transaction_id, insert_transaction. run_sql.
    serve Hf.
    unfold stored in Hnew. rewrite (existsb_false_filter _ _ Hnew). simpl.
    serve Hf. rewrite Hnew, Hbad. simpl. serve Hf. reflexivity.
  - intros Ht Hst.
    unfold update_transaction, get_connection. rewrite Hf, Ht, Hu, Hl, Hty, Ha. simpl.
    rewrite (Rle_bool_pos _ Hpos).
    unfold update_body, update_fields, edit_form. run_sql. serve Hf.
    unfold stored in Hst. rewrite Hst, Hbad. simpl. serve Hf. reflexivity.
Qed.

Lemma unknown_type_is_refused_by_the_store_witness :
  add_transaction whole_real_text true POST
    (mkForm "TXN009" "USER001" (Number 700) "Delhi" (Some 900) "Refund")
    quiet one_ok =
  (([TransactionIdAlreadyExists], render_template "add_transaction.html"), one_ok).
Proof.
  exact (proj1 (unknown_type_is_refused_by_the_store whole_real_text
                  whole_real_text true "TXN001"
                  (mkForm "TXN009" "USER001" (Number 700) "Delhi" (Some 900) "Refund")
                  quiet one_ok 700 900 (fun _ => eq_refl)
                  (conj eq_refl (conj eq_refl (conj eq_refl (conj eq_refl eq_refl))))
                  eq_refl) eq_refl eq_refl).
Defined.

(** X17.  The instant of a transaction is optional on create and required
    on update: a create without [txn_time] stores the row at the local
    clock of the request and counts the window of the velocity rule from
    there, while an update without [txn_time] changes nothing, whatever
    calls the engine fails, and is answered with
    [Please fill all required fields!] once the connect is served (an
    exception leaves the handler when it is not). *)
Theorem instant_defaults_on_create_only
    (sql_real_text py_float_text : Real -> string) (rapid_first : bool)
    (tid : string) (f : Form) (env : Env) (db : Database) (amt : Real) :
  form_txn_time f = None ->
  snd (update_transaction py_float_text POST tid f env db) = db /\
  (faults env 0%nat = false ->
   fst (update_transaction py_float_text POST tid f env db) =
     ([PleaseFillAllRequiredFields], redirect "update_transaction")) /\
  (faults env 0%nat = true ->
   fst (update_transaction py_float_text POST tid f env db) =
     ([], internal_server_error)) /\
  (served env ->
   filled (form_transaction_id f) = true ->
   passes_validation f amt ->
   txn_type_ok (form_txn_type f) = true ->
   stored (form_transaction_id f) db = false ->
   let out := add_transaction sql_real_text rapid_first POST f env db in
   fst out = ([TransactionAddedSuccessfully], redirect "view_transactions") /\
   filter (has_tid (form_transaction_id f)) (transactions (snd out)) =
     [mkTransaction (seq_transactions db + 1) (form_transaction_id f)
        (form_user_id f) amt (form_location f) (now_local env) (form_txn_type f)
        (derived_status amt
           (S (count_window (form_user_id f) (now_local env) (transactions db))))]).
Proof.
  intro Hnone. split; [|split; [|split]].
  - unfold update_transaction. rewrite Hnone. run_sql.
    destruct (faults env 0); reflexivity.
  - intro H0. unfold update_transaction. rewrite Hnone. run_sql.
    rewrite H0. reflexivity.
  - intro H0. unfold update_transaction. run_sql. rewrite H0. reflexivity.
  - intros Hf Hid Hv Hty Hnew out. subst out.
    rewrite add_transaction_success with (amt := amt); auto. cbn [fst snd].
    split; [reflexivity|].
    rewrite created_rows_of_tid by exact Hnew.
    unfold resolved_time. rewrite Hnone. reflexivity.
Qed.

Lemma instant_defaults_on_create_only_witness :
  update_transaction whole_real_text POST "TXN001"
    (mkForm "" "USER001" (Number 700) "Delhi" None "Debit") quiet one_ok =
  (([PleaseFillAllRequiredFields], redirect "update_transaction"), one_ok).
Proof.
  destruct (instant_defaults_on_create_only whole_real_text whole_real_text
              true "TXN001"
              (mkForm "" "USER001" (Number 700) "Delhi" None "Debit")
              quiet one_ok 700 eq_refl) as (Hsnd & Hfst & _).
  rewrite (surjective_pairing (update_transaction _ _ _ _ _ _)).
  rewrite Hsnd, (Hfst eq_refl). reflexivity.
Defined.

(** ** A burst of creates *)

Lemma created_stored_other sql_real_text rapid_first now tid uid amt loc t ty db x :
  stored tid db = false ->
  x <> tid ->
  stored x (created sql_real_text rapid_first now tid uid amt loc t ty db) =
  stored x db.
Proof.
  intros Hnew Hne. unfold stored. rewrite created_transactions by exact Hnew.
  rewrite existsb_app. simpl. unfold has_tid at 2. simpl.
  assert (E : (tid =? x)%string = false) by (apply String.eqb_neq; congruence).
  rewrite E. simpl. apply orb_false_r.
Qed.

Lemma count_window_all uid t rows :
  (forall r, In r rows -> user_id r = uid -> t - 300 <= txn_time r <= t) ->
  count_window uid t rows = List.length (filter (of_user uid) rows).
Proof.
  intro H. unfold count_window. f_equal. apply filter_ext_in.
  intros r Hin. unfold in_window, of_user.
  destruct (user_id r =? uid)%string eqn:E; [|reflexivity].
  apply String.eqb_eq in E. specialize (H r Hin E). simpl.
  apply andb_true_iff. split; apply Z.leb_le; lia.
Qed.

Lemma derived_status_small amt n :
  ~ exceeds amt 10000 ->
  derived_status amt n = if (5 <? n)%nat then FLAGGED else OK.
Proof.
  intro H. apply Rgtb_not_exceeds in H. unfold derived_status. rewrite H.
  reflexivity.
Qed.

Section Burst.

Variable sql_real_text : Real -> string.
Variable rapid_first : bool.
Variable uid : string.
Variables lo hi : Z.
Hypothesis span : hi - lo <= 300.

Lemma burst_transport now tid u amt loc t ty db reqs tprev :
  stored tid db = false ->
  ~ In tid (map (fun r => form_transaction_id (fst r)) reqs) ->
  burst uid tprev hi db reqs ->
  burst uid tprev hi
    (created sql_real_text rapid_first now tid u amt loc t ty db) reqs.
Proof.
  intro Hnew. revert tprev. induction reqs as [|[f env] rest IH];
    intros tprev Hout Hb; [exact I|].
  simpl in Hb, Hout.
  destruct Hb as (Hf & Hid & Hty & Hu & Hfree & Hdist & Hamt & t' & Ht & Hle & Hrest).
  simpl. repeat (split; [assumption|]). split.
  - rewrite created_stored_other; auto.
  - split; [exact Hdist|]. split; [exact Hamt|].
    exists t'. split; [exact Ht|]. split; [exact Hle|].
    apply IH; auto.
Qed.

Lemma burst_statuses reqs : forall db tprev k,
  lo <= tprev ->
  (forall r, In r (transactions db) -> user_id r = uid -> lo <= txn_time r <= tprev) ->
  List.length (filter (of_user uid) (transactions db)) = k ->
  burst uid tprev hi db reqs ->
  map status
    (filter (of_user uid)
       (transactions (create_all sql_real_text rapid_first reqs db))) =
  map status (filter (of_user uid) (transactions db))
  ++ map (fun i => if (5 <? i)%nat then FLAGGED else OK)
         (seq (S k) (List.length reqs)).
Proof.
  induction reqs as [|[f env] rest IH]; intros db tprev k Hlo Hrows Hk Hb.
  - simpl. symmetry. apply app_nil_r.
  - simpl in Hb.
    destruct Hb as (Hf & Hid & Hty & Hu & Hfree & Hdist
                    & (amt & Hv & Hamt) & t & Ht & Hle & Hrest).
    assert (Hres : resolved_time f env = t) by (unfold resolved_time; rewrite Ht; reflexivity).
    assert (Hcount : count_window uid t (transactions db) = k).
    { rewrite count_window_all; [exact Hk|].
      intros r Hin Hr. specialize (Hrows r Hin Hr). lia. }
    cbn [create_all].
    rewrite add_transaction_success with (amt := amt); auto. cbn [snd].
    rewrite Hres, Hu.
    rewrite (IH _ t (S k)).
    + rewrite created_transactions by exact Hfree.
      rewrite filter_app. cbn [filter]. unfold of_user at 2. cbn [user_id].
      rewrite String.eqb_refl, map_app. cbn [map status].
      rewrite Hcount, derived_status_small by exact Hamt.
      rewrite <- app_assoc. reflexivity.
    + lia.
    + intros r Hin Hr. rewrite created_transactions in Hin by exact Hfree.
      apply in_app_or in Hin. destruct Hin as [Hin | [E | []]].
      * specialize (Hrows r Hin Hr). lia.
      * subst r. simpl. lia.
    + rewrite created_transactions by exact Hfree.
      rewrite filter_app, length_app. cbn [filter]. unfold of_user at 2.
      cbn [user_id]. rewrite String.eqb_refl. simpl. lia.
    + apply burst_transport; assumption.
Qed.

End Burst.

(** X18.  When a user with no stored transaction sends a burst of valid
    creates, none above 10000, with instants that never go back and span at
    most five minutes, the first five are stored with status OK and every
    later one is FLAGGED by the velocity rule; the rows stored earlier in
    the burst keep the status they got. *)
Theorem burst_is_flagged_from_the_sixth
    (sql_real_text : Real -> string) (rapid_first : bool) (uid : string)
    (lo hi : Z) (db : Database) (reqs : list (Form * Env)) :
  hi - lo <= 300 ->
  (forall r, In r (transactions db) -> user_id r <> uid) ->
  burst uid lo hi db reqs ->
  map status
    (filter (of_user uid)
       (transactions (create_all sql_real_text rapid_first reqs db))) =
  map (fun i => if (5 <? i)%nat then FLAGGED else OK)
      (seq 1 (List.length reqs)).
Proof.
  intros Hspan Hnone Hb.
  assert (E : filter (of_user uid) (transactions db) = []).
  { apply existsb_false_filter, not_true_iff_false. intro Hex.
    apply existsb_exists in Hex. destruct Hex as (r & Hin & Hr).
    apply (Hnone r Hin). apply String.eqb_eq, Hr. }
  rewrite (burst_statuses sql_real_text rapid_first uid lo hi Hspan reqs db lo 0%nat).
  - rewrite E. reflexivity.
  - lia.
  - intros r Hin Hr. exfalso. exact (Hnone r Hin Hr).
  - rewrite E. reflexivity.
  - exact Hb.
Qed.

Lemma burst_is_flagged_from_the_sixth_witness :
  map status
    (filter (of_user "USER001")
       (transactions (create_all whole_real_text true six_in_four_minutes empty_db))) =
  [OK; OK; OK; OK; OK; FLAGGED].
Proof.
  refine (burst_is_flagged_from_the_sixth whole_real_text true "USER001" 0 240
            empty_db six_in_four_minutes _ _ _).
  - lia.
  - intros r [].
  - simpl.
    repeat match goal with
           | |- served _ /\ _ => split; [intros k; reflexivity|]
           | |- _ /\ _ => split
           | |- ~ _ => intro H; simpl in H; intuition discriminate
           | |- exists amt : Real, _ => eexists; split; [repeat split; reflexivity|]
           | |- exists t : Z, _ => eexists; split; [reflexivity|]
           | |- _ <= _ => lia
           | |- _ = _ => reflexivity
           | |- True => exact I
           end.
Defined.
